(** * Unsplash MCP server: response formatters, request executor and tools

    A shallow embedding of [src/services/formatters.ts],
    [src/services/unsplash-client.ts] and the tool handlers of
    [src/tools], with the properties their specification states about
    them and further properties of the code.

    Conventions of the embedding.
    - A JavaScript string is a [string]: one [ascii] per code unit, so the
      model covers the strings whose code units are below 256.  Its
      [length] is the number of code units.
    - A JavaScript number is an integer [Z]: the model covers the
      integer-valued numbers.  [String(n)] and template interpolation
      print the digits of an integer up to [2^53 - 1] in magnitude, which
      is what stdpp's [pretty] computes, and follow [Number::toString]
      above it, where the notation changes to an exponent from [10^21].
    - [undefined] is [None].
    - A [throw] is the [Throw] constructor of [JS.completion];
      [try]/[catch] is a match on it.
    - What the platform provides and the repository does not define is
      either modelled after its standard ([URLSearchParams], [substring],
      [ToString]) or a parameter of the code that uses it ([JSON.parse],
      [fetch], the locale). *)

From Stdlib Require Import ZArith Lia List Ascii String Bool.
From stdpp Require Import base numbers strings pretty.

Local Open Scope Z_scope.

(** ** The fragment of JavaScript the two services rely on *)

Module JS.

(** [s.length] *)
Definition length (s : string) : Z := Z.of_nat (String.length s).

(** ECMAScript bounds the length of every string value by [2^53 - 1]. *)
Definition MAX_STRING_LENGTH : Z := 2 ^ 53 - 1.

Definition string_value (s : string) : Prop := length s <= MAX_STRING_LENGTH.

(** [Number.MAX_SAFE_INTEGER]: up to it every integer is a Number value
    and is printed with all its digits. *)
Definition MAX_SAFE_INTEGER : Z := 2 ^ 53 - 1.

Definition safe_integer (n : Z) : Prop := Z.abs n <= MAX_SAFE_INTEGER.

(** *** [Number::toString] on an integer-valued Number

    A Number above [MAX_SAFE_INTEGER] is [m * 2^e] with
    [2^52 <= m < 2^53].  It is printed with the digits of the shortest
    decimal that rounds to it, followed by zeros while the decimal has at
    most 21 digits and in exponent notation beyond: [2^60] is printed
    [1152921504606847000] and [10^21] is printed [1e+21]. *)

(** The number of decimal digits of a positive integer. *)
Definition decimal_digits (x : Z) : Z := Z.of_nat (String.length (pretty x)).

(** The integer [c] rounds to the Number [x]: it lies between the
    midpoints to the neighbours of [x], which are included when [m] is
    even.  The comparison is made on the doubles of both sides; below a
    power of two the neighbour is half as far. *)
Definition rounds_to (x c : Z) : bool :=
  let e := Z.log2 x - 52 in
  let m := x / 2 ^ e in
  let below := if m =? 2 ^ 52 then 2 ^ (e - 1) else 2 ^ e in
  let above := 2 ^ e in
  if Z.even m
  then (2 * x - below <=? 2 * c) && (2 * c <=? 2 * x + above)
  else (2 * x - below <? 2 * c) && (2 * c <? 2 * x + above).

(** The decimals with [k] significant digits next to [x], for
    [k = 1, 2, ...]: the first that rounds to [x], the closer one of two,
    the even one of two that are as close. *)
Fixpoint shortest_from (x digits : Z) (fuel : nat) (k : Z) : Z :=
  match fuel with
  | O => x
  | S fuel' =>
      let p := 10 ^ (digits - k) in
      let lo := x / p * p in
      let hi := lo + p in
      match rounds_to x lo, rounds_to x hi with
      | true, true =>
          if x - lo <? hi - x then lo
          else if hi - x <? x - lo then hi
          else if Z.even (lo / p) then lo else hi
      | true, false => lo
      | false, true => hi
      | false, false => shortest_from x digits fuel' (k + 1)
      end
  end.

Definition shortest (x : Z) : Z :=
  shortest_from x (decimal_digits x) (Z.to_nat (decimal_digits x)) 1.

Fixpoint strip_trailing_zeros (s : string) : string :=
  match s with
  | EmptyString => EmptyString
  | String c rest =>
      match strip_trailing_zeros rest with
      | EmptyString =>
          if Ascii.eqb c "0" then EmptyString else String c EmptyString
      | rest' => String c rest'
      end
  end.

(** [d.ddde+n] *)
Definition exponent_notation (c : Z) : string :=
  let e := decimal_digits c - 1 in
  match strip_trailing_zeros (pretty c) with
  | String d EmptyString => String d EmptyString +:+ "e+" +:+ pretty e
  | String d rest => String d EmptyString +:+ "." +:+ rest +:+ "e+" +:+ pretty e
  | EmptyString => "0"
  end.

Definition magnitude_toString (x : Z) : string :=
  if x <=? MAX_SAFE_INTEGER then pretty x
  else
    let c := shortest x in
    if decimal_digits c <=? 21 then pretty c else exponent_notation c.

(** [String(n)], [`${n}`] for an integer-valued number. *)
Definition number_toString (n : Z) : string :=
  if n <? 0 then "-" +:+ magnitude_toString (- n) else magnitude_toString n.

(** The Number nearest to a positive integer, the one with the even [m]
    of two that are as near. *)
Definition nearest_number (x : Z) : Z :=
  if x <=? MAX_SAFE_INTEGER then x
  else
    let e := Z.log2 x - 52 in
    let m := x / 2 ^ e in
    let r := x mod 2 ^ e in
    let half := 2 ^ (e - 1) in
    let m' :=
      if r <? half then m
      else if half <? r then m + 1
      else if Z.even m then m else m + 1 in
    m' * 2 ^ e.

(** [a + b] on integer-valued numbers: the sum, rounded to a Number. *)
Definition add (a b : Z) : Z :=
  let sum := a + b in
  if sum <? 0 then - nearest_number (- sum) else nearest_number sum.

(** [String(b)] *)
Definition boolean_toString (b : bool) : string :=
  if b then "true" else "false".

(** [s.substring(start, end)]: both indices are clamped to [0, s.length]
    and swapped when [start > end]. *)
Definition substring (s : string) (start end_ : Z) : string :=
  let len := length s in
  let a := Z.min (Z.max start 0) len in
  let b := Z.min (Z.max end_ 0) len in
  let from := Z.min a b in
  let to := Z.max a b in
  String.substring (Z.to_nat from) (Z.to_nat (to - from)) s.

(** [parts.join(sep)] on an array of strings. *)
Definition join (sep : string) (parts : list string) : string :=
  String.concat sep parts.

(** [s.repeat(n)] *)
Fixpoint repeat (s : string) (n : nat) : string :=
  match n with
  | O => EmptyString
  | S n' => s +:+ repeat s n'
  end.

(** Truthiness of a value that is a string or [undefined]. *)
Definition truthy (v : option string) : bool :=
  match v with
  | Some (String _ _) => true
  | _ => false
  end.

(** [a || b] on values that are strings or [undefined]. *)
Definition or (a b : option string) : option string :=
  if truthy a then a else b.

(** [`${v}`] for a value that is a string or [undefined]. *)
Definition interpolate (v : option string) : string :=
  match v with
  | Some s => s
  | None => "undefined"
  end.

(** An instance of [Error]: its [name] and its [message]. *)
Record Error := MkError { error_name : string; error_message : string }.

Definition TypeError (message : string) : Error := MkError "TypeError" message.
Definition SyntaxError (message : string) : Error := MkError "SyntaxError" message.

(** How the evaluation of a function body ends: with a value, or with a
    thrown value of type [E]. *)
Inductive completion (E A : Type) : Type :=
| Return (a : A)
| Throw (e : E).
Global Arguments Return {E A} a.
Global Arguments Throw {E A} e.

Global Instance completion_ret {E} : MRet (completion E) := fun _ a => Return a.
Global Instance completion_bind {E} : MBind (completion E) := fun _ _ k m =>
  match m with
  | Return a => k a
  | Throw e => Throw e
  end.

(** [o.f] where [o] may be [undefined]: reading a property of
    [undefined] throws a [TypeError]. *)
Definition member {A B : Type} (o : option A) (f : A -> B) (reading : string)
  : completion Error B :=
  match o with
  | Some x => Return (f x)
  | None =>
      Throw (TypeError ("Cannot read properties of undefined (reading '"
                          +:+ reading +:+ "')"))
  end.

(** [o?.f] *)
Definition optional_member {A B : Type} (o : option A) (f : A -> option B)
  : option B :=
  match o with
  | Some x => f x
  | None => None
  end.

(** [parts.push(x)] *)
Definition push (parts : list string) (x : string) : list string :=
  parts ++ [x].

(** The line feed of an escape [\n]. *)
Definition LF : string := String "010"%char EmptyString.

(** The multiplication sign, U+00D7. *)
Definition TIMES : string := String "215"%char EmptyString.

(** The double quote, for JSON texts. *)
Definition DQ : string := String "034"%char EmptyString.

End JS.

(** ** [src/constants.ts] *)

Definition UNSPLASH_API_URL : string := "https://api.unsplash.com".
Definition CHARACTER_LIMIT : Z := 15000.

(** ** [truncateIfNeeded] of [src/services/formatters.ts] *)

(** The text appended after the kept prefix,
    [`\n\n...[Content truncated due to length. Total: ${total} characters]`]. *)
Definition truncation_notice (total : Z) : string :=
  JS.LF +:+ JS.LF +:+ "...[Content truncated due to length. Total: "
    +:+ JS.number_toString total +:+ " characters]".

Definition truncateIfNeeded (content : string) (limit : Z) : string :=
  if JS.length content <=? limit then content
  else
    let truncated := JS.substring content 0 (limit - 100) in
    truncated +:+ truncation_notice (JS.length content).

(** The call with the default argument, [truncateIfNeeded(content)]. *)
Definition truncateIfNeeded_default (content : string) : string :=
  truncateIfNeeded content CHARACTER_LIMIT.

(** ** Records of [src/types.ts]

    Each record keeps the attributes the formatters read; an optional
    attribute ([name?: T]) is an [option]. *)

Module UserLinks.
Record t := { html : string }.
End UserLinks.

Module User.
Record t := {
  id : string;
  username : string;
  name : string;
  bio : option string;
  location : option string;
  total_likes : Z;
  total_photos : Z;
  total_collections : Z;
  instagram_username : option string;
  portfolio_url : option string;
  links : UserLinks.t
}.
End User.

Module PhotoUrls.
Record t := { regular : string }.
End PhotoUrls.

Module PhotoLinks.
Record t := { html : string; download_location : string }.
End PhotoLinks.

Module Location.
Record t := { name : option string }.
End Location.

Module Tag.
Record t := { title : string }.
End Tag.

Module Photo.
Record t := {
  id : string;
  created_at : string;
  width : Z;
  height : Z;
  color : string;
  description : option string;
  alt_description : option string;
  likes : Z;
  urls : PhotoUrls.t;
  links : PhotoLinks.t;
  user : User.t;
  location : option Location.t;
  tags : option (list Tag.t)
}.
End Photo.

Module CollectionLinks.
Record t := { html : string }.
End CollectionLinks.

Module Collection.
Record t := {
  id : string;
  title : string;
  description : option string;
  published_at : string;
  total_photos : Z;
  user : User.t;
  links : CollectionLinks.t
}.
End Collection.

Module Historical.
Record t := { change : Z }.
End Historical.

Module Counter.
Record t := { total : Z; historical : Historical.t }.
End Counter.

Module PhotoStatistics.
Record t := {
  id : string;
  downloads : Counter.t;
  views : Counter.t;
  likes : Counter.t
}.
End PhotoStatistics.

(** ** The formatters of [src/services/formatters.ts] *)

(** What the host's locale decides: [n.toLocaleString()] and
    [new Date(s).toLocaleDateString()]. *)
Class Locale := {
  toLocaleString : Z -> string;
  toLocaleDateString : string -> string
}.

(** [`${change > 0 ? "+" : ""}${change}`] *)
Definition signed_change (change : Z) : string :=
  (if change >? 0 then "+" else EmptyString) +:+ JS.number_toString change.

Section Formatters.
Context {locale : Locale}.
Import JS.

Definition formatPhotoMarkdown_parts (photo : Photo.t)
  : completion Error (list string) :=
  let parts := [] in
  let parts := push parts
    ("### " +:+ interpolate
       (or (or (Photo.alt_description photo) (Photo.description photo))
           (Some "Photo"))) in
  let parts := push parts ("**ID**: " +:+ Photo.id photo) in
  let parts := push parts
    ("**Photographer**: " +:+ User.name (Photo.user photo)
       +:+ " (@" +:+ User.username (Photo.user photo) +:+ ")") in
  let parts := push parts
    ("**Dimensions**: " +:+ number_toString (Photo.width photo)
       +:+ " " +:+ TIMES +:+ " " +:+ number_toString (Photo.height photo)
       +:+ "px") in
  let parts := push parts ("**Color**: " +:+ Photo.color photo) in
  let parts := push parts
    ("**Likes**: " +:+ number_toString (Photo.likes photo)) in
  let parts :=
    if truthy (Photo.description photo)
    then push parts
           ("**Description**: " +:+ interpolate (Photo.description photo))
    else parts in
  parts ←
    (if truthy (optional_member (Photo.location photo) Location.name)
     then
       location_name ← member (Photo.location photo) Location.name "name";
       mret (push parts ("**Location**: " +:+ interpolate location_name))
     else mret parts);
  let parts := push parts
    ("**Created**: " +:+ toLocaleDateString (Photo.created_at photo)) in
  let parts := push parts
    ("**Unsplash URL**: " +:+ PhotoLinks.html (Photo.links photo)) in
  let parts := push parts
    ("**Download URL**: " +:+ PhotoUrls.regular (Photo.urls photo)) in
  (* [photo.tags && photo.tags.length > 0]: [undefined] is falsy and
     stops the conjunction, an array is truthy *)
  has_tags ←
    match Photo.tags photo with
    | None => mret false
    | Some _ =>
        n ← member (Photo.tags photo) (@List.length Tag.t) "length";
        mret (0 <? Z.of_nat n)
    end;
  parts ←
    (if has_tags : bool
     then
       titles ← member (Photo.tags photo) (List.map Tag.title) "map";
       mret (push parts ("**Tags**: " +:+ join ", " titles))
     else mret parts);
  mret parts.

Definition formatPhotoMarkdown (photo : Photo.t) : completion Error string :=
  parts ← formatPhotoMarkdown_parts photo;
  mret (join LF parts).

Definition formatCollectionMarkdown_parts (collection : Collection.t)
  : list string :=
  let parts := [] in
  let parts := push parts ("### " +:+ Collection.title collection) in
  let parts := push parts ("**ID**: " +:+ Collection.id collection) in
  let parts := push parts
    ("**Curator**: " +:+ User.name (Collection.user collection)
       +:+ " (@" +:+ User.username (Collection.user collection) +:+ ")") in
  let parts := push parts
    ("**Total Photos**: "
       +:+ number_toString (Collection.total_photos collection)) in
  let parts :=
    if truthy (Collection.description collection)
    then push parts
           ("**Description**: "
              +:+ interpolate (Collection.description collection))
    else parts in
  let parts := push parts
    ("**Published**: "
       +:+ toLocaleDateString (Collection.published_at collection)) in
  let parts := push parts
    ("**Unsplash URL**: "
       +:+ CollectionLinks.html (Collection.links collection)) in
  parts.

Definition formatCollectionMarkdown (collection : Collection.t) : string :=
  join LF (formatCollectionMarkdown_parts collection).

Definition formatUserMarkdown_parts (user : User.t) : list string :=
  let parts := [] in
  let parts := push parts
    ("### " +:+ User.name user +:+ " (@" +:+ User.username user +:+ ")") in
  let parts := push parts ("**ID**: " +:+ User.id user) in
  let parts := push parts
    ("**Total Photos**: " +:+ number_toString (User.total_photos user)) in
  let parts := push parts
    ("**Total Likes**: " +:+ number_toString (User.total_likes user)) in
  let parts := push parts
    ("**Total Collections**: "
       +:+ number_toString (User.total_collections user)) in
  let parts :=
    if truthy (User.bio user)
    then push parts ("**Bio**: " +:+ interpolate (User.bio user))
    else parts in
  let parts :=
    if truthy (User.location user)
    then push parts ("**Location**: " +:+ interpolate (User.location user))
    else parts in
  let parts :=
    if truthy (User.instagram_username user)
    then push parts
           ("**Instagram**: @" +:+ interpolate (User.instagram_username user))
    else parts in
  let parts :=
    if truthy (User.portfolio_url user)
    then push parts
           ("**Portfolio**: " +:+ interpolate (User.portfolio_url user))
    else parts in
  let parts := push parts
    ("**Unsplash Profile**: " +:+ UserLinks.html (User.links user)) in
  parts.

Definition formatUserMarkdown (user : User.t) : string :=
  join LF (formatUserMarkdown_parts user).

Definition formatStatisticsMarkdown_parts (stats : PhotoStatistics.t)
  : list string :=
  let parts := [] in
  let parts := push parts
    ("### Photo Statistics (ID: " +:+ PhotoStatistics.id stats +:+ ")") in
  let parts := push parts
    ("**Total Downloads**: "
       +:+ toLocaleString (Counter.total (PhotoStatistics.downloads stats))) in
  let parts := push parts
    ("**Total Views**: "
       +:+ toLocaleString (Counter.total (PhotoStatistics.views stats))) in
  let parts := push parts
    ("**Total Likes**: "
       +:+ toLocaleString (Counter.total (PhotoStatistics.likes stats))) in
  let parts := push parts (LF +:+ "**Recent Trends**:") in
  let parts := push parts
    ("- Downloads change: "
       +:+ signed_change
             (Historical.change
                (Counter.historical (PhotoStatistics.downloads stats)))) in
  let parts := push parts
    ("- Views change: "
       +:+ signed_change
             (Historical.change
                (Counter.historical (PhotoStatistics.views stats)))) in
  let parts := push parts
    ("- Likes change: "
       +:+ signed_change
             (Historical.change
                (Counter.historical (PhotoStatistics.likes stats)))) in
  parts.

Definition formatStatisticsMarkdown (stats : PhotoStatistics.t) : string :=
  join LF (formatStatisticsMarkdown_parts stats).

(** The list variants: [items.map((item, index) => ...).join("\n\n")];
    a line break inside a template is a line feed followed by the
    three spaces of the source's indentation. *)
Definition INDENT : string := LF +:+ "   - ".

Definition formatPhotosListMarkdown (photos : list Photo.t) : string :=
  let formatted := imap (fun index photo =>
    number_toString (Z.of_nat index + 1) +:+ ". **"
      +:+ interpolate (or (Photo.alt_description photo) (Some "Photo"))
      +:+ "** (ID: " +:+ Photo.id photo +:+ ")"
      +:+ INDENT +:+ "By " +:+ User.name (Photo.user photo)
      +:+ " (@" +:+ User.username (Photo.user photo) +:+ ")"
      +:+ INDENT +:+ number_toString (Photo.width photo)
      +:+ " " +:+ TIMES +:+ " " +:+ number_toString (Photo.height photo)
      +:+ "px | " +:+ number_toString (Photo.likes photo) +:+ " likes"
      +:+ INDENT +:+ PhotoLinks.html (Photo.links photo)) photos in
  join (LF +:+ LF) formatted.

Definition formatCollectionsListMarkdown (collections : list Collection.t)
  : string :=
  let formatted := imap (fun index collection =>
    number_toString (Z.of_nat index + 1) +:+ ". **"
      +:+ Collection.title collection
      +:+ "** (ID: " +:+ Collection.id collection +:+ ")"
      +:+ INDENT +:+ "By " +:+ User.name (Collection.user collection)
      +:+ " (@" +:+ User.username (Collection.user collection) +:+ ")"
      +:+ INDENT +:+ number_toString (Collection.total_photos collection)
      +:+ " photos"
      +:+ INDENT +:+ CollectionLinks.html (Collection.links collection))
    collections in
  join (LF +:+ LF) formatted.

Definition formatUsersListMarkdown (users : list User.t) : string :=
  let formatted := imap (fun index user =>
    number_toString (Z.of_nat index + 1) +:+ ". **" +:+ User.name user
      +:+ "** (@" +:+ User.username user +:+ ")"
      +:+ INDENT +:+ number_toString (User.total_photos user)
      +:+ " photos | " +:+ number_toString (User.total_likes user)
      +:+ " likes"
      +:+ INDENT +:+ UserLinks.html (User.links user)) users in
  join (LF +:+ LF) formatted.

End Formatters.

(** ** The platform objects [src/services/unsplash-client.ts] relies on *)

(** [URLSearchParams]: an ordered list of name and value pairs, and its
    [toString()], the [application/x-www-form-urlencoded] serializer of the
    URL standard, on the strings of this model.  Their code units are
    below 256, so none is a surrogate and the conversion to scalar values
    that [append] makes first, which replaces an unpaired surrogate by
    U+FFFD, leaves them as they are. *)
Module URLSearchParams.

Definition t := list (string * string).

Definition append (params : t) (name value : string) : t :=
  params ++ [(name, value)].

(** The code units the serializer leaves as they are: ASCII letters and
    digits, and [*], [-], [.], [_]. *)
Definition unreserved (c : ascii) : bool :=
  let n := N_of_ascii c in
  ((48 <=? n) && (n <=? 57) || (65 <=? n) && (n <=? 90)
   || (97 <=? n) && (n <=? 122)
   || (n =? 42) || (n =? 45) || (n =? 46) || (n =? 95))%N.

Definition hex_digit (n : N) : ascii :=
  ascii_of_N (if (n <? 10)%N then 48 + n else 55 + n)%N.

(** [%XX], with upper-case hexadecimal digits. *)
Definition percent_encode_byte (b : N) : string :=
  String "%"%char
    (String (hex_digit (b / 16)%N) (String (hex_digit (b mod 16)%N) EmptyString)).

(** The UTF-8 bytes of a code unit below 256. *)
Definition utf8_bytes (c : ascii) : list N :=
  let n := N_of_ascii c in
  if (n <? 128)%N then [n] else [192 + n / 64; 128 + n mod 64]%N.

Definition serialize_code_unit (c : ascii) : string :=
  if Ascii.eqb c " "%char then "+"
  else if unreserved c then String c EmptyString
  else String.concat EmptyString (List.map percent_encode_byte (utf8_bytes c)).

Fixpoint serialize_string (s : string) : string :=
  match s with
  | EmptyString => EmptyString
  | String c s' => serialize_code_unit c +:+ serialize_string s'
  end.

Definition toString (params : t) : string :=
  JS.join "&"
    (List.map (fun p => serialize_string (fst p) +:+ "=" +:+ serialize_string (snd p))
              params).

End URLSearchParams.

(** The values [JSON.parse] produces.  The members of an object are listed
    in the order of the text; when a name occurs twice the last one is the
    property's value. *)
#[warnings="-register-all"]
Inductive JSON : Type :=
| JNull
| JBool (b : bool)
| JNumber (n : Z)
| JString (s : string)
| JArray (items : list JSON)
| JObject (members : list (string * JSON)).

Module Value.
Import JS.

Fixpoint lookup (key : string) (members : list (string * JSON)) : option JSON :=
  match members with
  | [] => None
  | (k, v) :: rest =>
      match lookup key rest with
      | Some later => Some later
      | None => if String.eqb k key then Some v else None
      end
  end.

(** [v.key] for a [key] that no prototype defines, as [errors] and
    [error]: the own property of an object, [undefined] on any other
    value, and a [TypeError] on [null]. *)
Definition get (v : JSON) (key : string) : completion Error (option JSON) :=
  match v with
  | JNull =>
      Throw (TypeError ("Cannot read properties of null (reading '"
                          +:+ key +:+ "')"))
  | JObject members => Return (lookup key members)
  | _ => Return None
  end.

(** [v?.[0]] *)
Definition optional_first (v : option JSON) : option JSON :=
  match v with
  | None | Some JNull => None
  | Some (JArray items) => List.head items
  | Some (JString (String c _)) => Some (JString (String c EmptyString))
  | Some (JObject members) => lookup "0" members
  | Some _ => None
  end.

(** Truthiness: [undefined], [null], [false], [0] and the empty string
    are falsy. *)
Definition truthy (v : option JSON) : bool :=
  match v with
  | None | Some JNull => false
  | Some (JBool b) => b
  | Some (JNumber n) => negb (n =? 0)
  | Some (JString s) => negb (String.eqb s EmptyString)
  | Some (JArray _) | Some (JObject _) => true
  end.

(** [ToString(v)], which the [Error] constructor applies to its message.
    An array joins the conversions of its elements with commas, [null]
    elements giving the empty string; an object converts through
    [Object.prototype.toString] unless an own [toString] member, which is
    never callable in a parsed document, hides it. *)
Fixpoint ToString (v : JSON) : completion Error string :=
  match v with
  | JNull => Return "null"
  | JBool b => Return (boolean_toString b)
  | JNumber n => Return (number_toString n)
  | JString s => Return s
  | JArray items =>
      let fix elements (items : list JSON) : completion Error (list string) :=
        match items with
        | [] => Return []
        | item :: rest =>
            s ← match item with
                | JNull => Return EmptyString
                | _ => ToString item
                end;
            ss ← elements rest;
            mret (s :: ss)
        end in
      ss ← elements items;
      mret (join "," ss)
  | JObject members =>
      match lookup "toString" members with
      | Some _ => Throw (TypeError "Cannot convert object to primitive value")
      | None => Return "[object Object]"
      end
  end.

End Value.

(** ** [src/services/unsplash-client.ts] *)

(** What the third field of an [UnsplashAPIError] holds ([response?: unknown]):
    the text of the response body, or the error that was caught. *)
Inductive Payload : Type :=
| BodyText (text : string)
| Cause (error : JS.Error).

Record UnsplashAPIError := {
  message : string;
  statusCode : option Z;
  response : option Payload
}.

(** [new UnsplashAPIError(message, statusCode, response)]: [super(message)]
    converts the message to a string. *)
Definition new_UnsplashAPIError (message : JSON) (statusCode : option Z)
    (response : option Payload) : JS.completion JS.Error UnsplashAPIError :=
  msg ← Value.ToString message;
  mret {| message := msg; statusCode := statusCode; response := response |}.

(** A thrown value, by the [instanceof] tests of [makeRequest]. *)
Inductive Thrown : Type :=
| ThrownAPIError (e : UnsplashAPIError)
| ThrownError (e : JS.Error)
| ThrownValue (v : JSON).

Record Request := { url : string; headers : list (string * string) }.

(** A response whose body has been received. *)
Record Response := { status : Z; body : string }.

(** [response.ok]: the status is in the range 200 to 299. *)
Definition ok (r : Response) : bool := (200 <=? status r) && (status r <=? 299).

(** How [await fetch(...)] and the reading of the body end: rejected with a
    reason before the body is there, or fulfilled with a response. *)
Inductive FetchOutcome : Type :=
| Rejected (reason : Thrown)
| Fulfilled (response : Response).

(** The host: [JSON.parse] and [fetch]. *)
Class Host := {
  JSON_parse : string -> JS.completion JS.Error JSON;
  fetch : Request -> FetchOutcome
}.

(** A value of a parameter record: [string | number | boolean]. *)
Inductive Scalar : Type :=
| SString (s : string)
| SNumber (n : Z)
| SBoolean (b : bool).

(** [String(value)] *)
Definition String_of (value : Scalar) : string :=
  match value with
  | SString s => s
  | SNumber n => JS.number_toString n
  | SBoolean b => JS.boolean_toString b
  end.

(** [Object.entries(params)], in the order the object enumerates them. *)
Definition Params := list (string * option Scalar).

Record UnsplashClient := { accessKey : string }.

Definition new_UnsplashClient (accessKey : string)
  : JS.completion JS.Error UnsplashClient :=
  if negb (JS.truthy (Some accessKey))
  then JS.Throw (JS.MkError "Error"
         "Unsplash Access Key is required. Set UNSPLASH_ACCESS_KEY environment variable.")
  else JS.Return {| accessKey := accessKey |}.

(** An entry of the console: the arguments of [console.error]. *)
Definition LogEntry : Type := string * Thrown.

Section Client.
Context {host : Host}.
Import JS.

(** Lines 33 to 40: the query parameters. *)
Definition queryParams_of (params : option Params) : URLSearchParams.t :=
  match params with
  | None => []
  | Some entries =>
      List.fold_left
        (fun queryParams entry =>
           match snd entry with
           | Some value =>
               URLSearchParams.append queryParams (fst entry) (String_of value)
           | None => queryParams
           end)
        entries []
  end.

(** Lines 42 to 44: the address. *)
Definition url_of (endpoint : string) (params : option Params) : string :=
  let queryParams := queryParams_of params in
  UNSPLASH_API_URL +:+ endpoint
    +:+ (if truthy (Some (URLSearchParams.toString queryParams))
         then "?" +:+ URLSearchParams.toString queryParams
         else EmptyString).

(** Lines 55 to 63: the message of a failed response. *)
Definition errorMessage_of (response : Response) : JSON :=
  let errorText := body response in
  let errorMessage :=
    JString ("Unsplash API error (" +:+ number_toString (status response) +:+ ")") in
  let attempt : completion Error JSON :=
    errorJson ← JSON_parse errorText;
    errors ← Value.get errorJson "errors";
    let first := Value.optional_first errors in
    if Value.truthy first then mret (default errorMessage first)
    else
      error ← Value.get errorJson "error";
      if Value.truthy error then mret (default errorMessage error)
      else mret errorMessage in
  match attempt with
  | Return chosen => chosen
  | Throw _ =>
      if truthy (Some errorText) then JString errorText else errorMessage
  end.

(** Lines 47 to 52: the call that is sent. *)
Definition request_of (client : UnsplashClient) (endpoint : string)
    (params : option Params) : Request :=
  {| url := url_of endpoint params;
     headers := [("Authorization", "Client-ID " +:+ accessKey client);
                 ("Accept-Version", "v1")] |}.

Definition makeRequest (client : UnsplashClient) (endpoint : string)
    (params : option Params) : completion Thrown JSON :=
  let attempt : completion Thrown JSON :=
    match fetch (request_of client endpoint params) with
    | Rejected reason => Throw reason
    | Fulfilled response =>
        if negb (ok response) then
          let errorText := body response in
          let errorMessage := errorMessage_of response in
          match new_UnsplashAPIError errorMessage (Some (status response))
                  (Some (BodyText errorText)) with
          | Return e => Throw (ThrownAPIError e)
          | Throw e => Throw (ThrownError e)
          end
        else
          match JSON_parse (body response) with
          | Return value => Return value
          | Throw e => Throw (ThrownError e)
          end
    end in
  match attempt with
  | Return value => Return value
  | Throw (ThrownAPIError error) => Throw (ThrownAPIError error)
  | Throw (ThrownError error) =>
      Throw (ThrownAPIError
               {| message := "Network error: " +:+ error_message error;
                  statusCode := None;
                  response := Some (Cause error) |})
  | Throw (ThrownValue _) =>
      Throw (ThrownAPIError
               {| message := "Unknown error occurred";
                  statusCode := None;
                  response := None |})
  end.

(** Lines 89 to 93: the call that [trackDownload] sends. *)
Definition tracking_request_of (client : UnsplashClient)
    (downloadLocation : string) : Request :=
  {| url := downloadLocation;
     headers := [("Authorization", "Client-ID " +:+ accessKey client)] |}.

(** [trackDownload], with the console passed through: the entries written
    by [console.error] are appended to it. *)
Definition trackDownload (client : UnsplashClient) (downloadLocation : string)
    (console : list LogEntry) : completion Thrown unit * list LogEntry :=
  match fetch (tracking_request_of client downloadLocation) with
  | Fulfilled _ => (Return tt, console)
  | Rejected error =>
      (Return tt, console ++ [("Failed to track download:", error)])
  end.

End Client.

(** ** The enumerations of [src/types.ts] *)

Module ResponseFormat.
Inductive t := JSON | MARKDOWN.
End ResponseFormat.

Module PhotoOrientation.
Inductive t := LANDSCAPE | PORTRAIT | SQUARISH.
Definition value (o : t) : string :=
  match o with
  | LANDSCAPE => "landscape"
  | PORTRAIT => "portrait"
  | SQUARISH => "squarish"
  end.
End PhotoOrientation.

Module PhotoOrderBy.
Inductive t := RELEVANT | LATEST.
Definition value (o : t) : string :=
  match o with
  | RELEVANT => "relevant"
  | LATEST => "latest"
  end.
End PhotoOrderBy.

Module ContentFilter.
Inductive t := LOW | HIGH.
Definition value (f : t) : string :=
  match f with
  | LOW => "low"
  | HIGH => "high"
  end.
End ContentFilter.

(** [z.enum(["latest", "oldest", "popular"])] of the schemas. *)
Module FeedOrder.
Inductive t := latest | oldest | popular.
Definition value (o : t) : string :=
  match o with
  | latest => "latest"
  | oldest => "oldest"
  | popular => "popular"
  end.
End FeedOrder.

(** ** The validated parameters, [z.infer] of the schemas

    A field with a default is present after validation; an [optional]
    field is an [option]. *)

Module SearchPhotosParams.
Record t := {
  query : string;
  page : Z;
  per_page : Z;
  orientation : option PhotoOrientation.t;
  content_filter : ContentFilter.t;
  color : option string;
  order_by : PhotoOrderBy.t;
  response_format : ResponseFormat.t
}.
End SearchPhotosParams.

Module GetPhotoParams.
Record t := { id : string; response_format : ResponseFormat.t }.
End GetPhotoParams.

Module GetRandomPhotoParams.
Record t := {
  query : option string;
  orientation : option PhotoOrientation.t;
  content_filter : ContentFilter.t;
  count : Z;
  response_format : ResponseFormat.t
}.
End GetRandomPhotoParams.

Module ListPhotosParams.
Record t := {
  page : Z;
  per_page : Z;
  order_by : FeedOrder.t;
  response_format : ResponseFormat.t
}.
End ListPhotosParams.

Module GetPhotoStatisticsParams.
Record t := { id : string; response_format : ResponseFormat.t }.
End GetPhotoStatisticsParams.

Module DownloadPhotoParams.
Record t := { id : string }.
End DownloadPhotoParams.

(** [SearchCollectionsSchema] and [SearchUsersSchema] have these fields. *)
Module SearchParams.
Record t := {
  query : string;
  page : Z;
  per_page : Z;
  response_format : ResponseFormat.t
}.
End SearchParams.

Module GetCollectionPhotosParams.
Record t := {
  id : string;
  page : Z;
  per_page : Z;
  orientation : option PhotoOrientation.t;
  response_format : ResponseFormat.t
}.
End GetCollectionPhotosParams.

Module GetUserPhotosParams.
Record t := {
  username : string;
  page : Z;
  per_page : Z;
  order_by : FeedOrder.t;
  orientation : option PhotoOrientation.t;
  response_format : ResponseFormat.t
}.
End GetUserPhotosParams.

(** ** The tools of [src/tools/photos.ts] and [src/tools/collections-users.ts] *)

(** [SearchPhotosResponse], [SearchCollectionsResponse] and
    [SearchUsersResponse]: the same fields around different records. *)
Module SearchResponse.
Record t (A : Type) := { total : Z; total_pages : Z; results : list A }.
Arguments total {A} _.
Arguments total_pages {A} _.
Arguments results {A} _.
End SearchResponse.

(** *** Bodies of the declared types

    [await client.makeRequest<T>(...)] hands the parsed body to the tool
    at the type [T] without a check.  [Decode] reads the bodies that are
    of the declared type: every property that a tool or a formatter reads
    is there with the type that [src/types.ts] declares for it, and a
    property declared optional is absent, [null] or of its type.  On any
    other body a reader returns [None]. *)
Module Decode.

(** The own property [key] of an object. *)
Definition property (v : JSON) (key : string) : option JSON :=
  match v with
  | JObject members => Value.lookup key members
  | _ => None
  end.

Definition str (v : JSON) (key : string) : option string :=
  match property v key with
  | Some (JString s) => Some s
  | _ => None
  end.

Definition num (v : JSON) (key : string) : option Z :=
  match property v key with
  | Some (JNumber n) => Some n
  | _ => None
  end.

Definition obj (v : JSON) (key : string) : option JSON :=
  match property v key with
  | Some (JObject members) => Some (JObject members)
  | _ => None
  end.

(** [key?: string] *)
Definition optional_str (v : JSON) (key : string) : option (option string) :=
  match property v key with
  | None | Some JNull => Some None
  | Some (JString s) => Some (Some s)
  | Some _ => None
  end.

Fixpoint all {A : Type} (read : JSON -> option A) (items : list JSON)
  : option (list A) :=
  match items with
  | [] => Some []
  | item :: rest =>
      a ← read item;
      others ← all read rest;
      Some (a :: others)
  end.

(** [A[]] *)
Definition array {A : Type} (read : JSON -> option A) (v : JSON)
  : option (list A) :=
  match v with
  | JArray items => all read items
  | _ => None
  end.

Definition user (v : JSON) : option User.t :=
  id ← str v "id";
  username ← str v "username";
  name ← str v "name";
  bio ← optional_str v "bio";
  location ← optional_str v "location";
  total_likes ← num v "total_likes";
  total_photos ← num v "total_photos";
  total_collections ← num v "total_collections";
  instagram_username ← optional_str v "instagram_username";
  portfolio_url ← optional_str v "portfolio_url";
  links ← obj v "links";
  html ← str links "html";
  Some {| User.id := id;
          User.username := username;
          User.name := name;
          User.bio := bio;
          User.location := location;
          User.total_likes := total_likes;
          User.total_photos := total_photos;
          User.total_collections := total_collections;
          User.instagram_username := instagram_username;
          User.portfolio_url := portfolio_url;
          User.links := {| UserLinks.html := html |} |}.

(** [location?: { name?: string; ... }] *)
Definition location (v : JSON) : option (option Location.t) :=
  match property v "location" with
  | None | Some JNull => Some None
  | Some (JObject members) =>
      name ← optional_str (JObject members) "name";
      Some (Some {| Location.name := name |})
  | Some _ => None
  end.

Definition tag (v : JSON) : option Tag.t :=
  title ← str v "title";
  Some {| Tag.title := title |}.

(** [tags?: Array<{ title: string }>] *)
Definition tags (v : JSON) : option (option (list Tag.t)) :=
  match property v "tags" with
  | None | Some JNull => Some None
  | Some (JArray items) =>
      titles ← all tag items;
      Some (Some titles)
  | Some _ => None
  end.

Definition photo (v : JSON) : option Photo.t :=
  id ← str v "id";
  created_at ← str v "created_at";
  width ← num v "width";
  height ← num v "height";
  color ← str v "color";
  description ← optional_str v "description";
  alt_description ← optional_str v "alt_description";
  likes ← num v "likes";
  urls ← obj v "urls";
  regular ← str urls "regular";
  links ← obj v "links";
  html ← str links "html";
  download_location ← str links "download_location";
  author ← obj v "user";
  author ← user author;
  place ← location v;
  labels ← tags v;
  Some {| Photo.id := id;
          Photo.created_at := created_at;
          Photo.width := width;
          Photo.height := height;
          Photo.color := color;
          Photo.description := description;
          Photo.alt_description := alt_description;
          Photo.likes := likes;
          Photo.urls := {| PhotoUrls.regular := regular |};
          Photo.links := {| PhotoLinks.html := html;
                            PhotoLinks.download_location := download_location |};
          Photo.user := author;
          Photo.location := place;
          Photo.tags := labels |}.

Definition collection (v : JSON) : option Collection.t :=
  id ← str v "id";
  title ← str v "title";
  description ← optional_str v "description";
  published_at ← str v "published_at";
  total_photos ← num v "total_photos";
  curator ← obj v "user";
  curator ← user curator;
  links ← obj v "links";
  html ← str links "html";
  Some {| Collection.id := id;
          Collection.title := title;
          Collection.description := description;
          Collection.published_at := published_at;
          Collection.total_photos := total_photos;
          Collection.user := curator;
          Collection.links := {| CollectionLinks.html := html |} |}.

Definition counter (v : JSON) (key : string) : option Counter.t :=
  counted ← obj v key;
  total ← num counted "total";
  historical ← obj counted "historical";
  change ← num historical "change";
  Some {| Counter.total := total;
          Counter.historical := {| Historical.change := change |} |}.


(** The three search responses. *)
Definition search {A : Type} (read : JSON -> option A) (v : JSON)
  : option (SearchResponse.t A) :=
  total ← num v "total";
  total_pages ← num v "total_pages";
  results ← property v "results";
  items ← array read results;
  Some {| SearchResponse.total := total;
          SearchResponse.total_pages := total_pages;
          SearchResponse.results := items |}.

(** [UnsplashPhoto[]] *)
Definition photos (v : JSON) : option (list Photo.t) := array photo v.

(** [UnsplashPhoto | UnsplashPhoto[]], read as
    [Array.isArray(data) ? data : [data]]. *)
Definition photo_or_photos (v : JSON) : option (list Photo.t) :=
  match v with
  | JArray items => all photo items
  | _ =>
      one ← photo v;
      Some [one]
  end.


End Decode.

(** What a tool returns: the [text] of its one content item, the
    [structuredContent] when there is one, and [isError]. *)
Record ToolResult := {
  text : string;
  structuredContent : option JSON;
  isError : bool
}.

(** [JSON.stringify(value, null, 2)] *)
Class Stringify := JSON_stringify : JSON -> string.

(** What each tool does with a body that was received and is not of the
    declared type.  Such a body is not refused: the handler runs on it,
    and the reads it makes then follow JavaScript's dynamic rules (most
    often a [TypeError] on a property of [undefined], which the handler's
    [catch] turns into an error result).  These rules are modelled for
    [makeRequest] only, so this part of each handler is a parameter. *)
Class Untyped := {
  untyped_search_photos : SearchPhotosParams.t -> JSON -> ToolResult;
  untyped_get_photo : GetPhotoParams.t -> JSON -> ToolResult;
  untyped_get_random : GetRandomPhotoParams.t -> JSON -> ToolResult;
  untyped_list_photos : ListPhotosParams.t -> JSON -> ToolResult;
  untyped_get_statistics : GetPhotoStatisticsParams.t -> JSON -> ToolResult;
  untyped_track_download :
    DownloadPhotoParams.t -> JSON -> list LogEntry -> ToolResult * list LogEntry;
  untyped_search_collections : SearchParams.t -> JSON -> ToolResult;
  untyped_get_collection_photos : GetCollectionPhotosParams.t -> JSON -> ToolResult;
  untyped_search_users : SearchParams.t -> JSON -> ToolResult;
  untyped_get_user_photos : GetUserPhotosParams.t -> JSON -> ToolResult
}.

(** [error instanceof Error ? error.message : "Unknown error occurred"] *)
Definition errorMessage_caught (error : Thrown) : string :=
  match error with
  | ThrownAPIError e => message e
  | ThrownError e => JS.error_message e
  | ThrownValue _ => "Unknown error occurred"
  end.

(** The result of a [catch] block, [prefix] being the text before the
    message, as in [`Error searching photos: ${errorMessage}`]. *)
Definition caught (prefix : string) (error : Thrown) : ToolResult :=
  {| text := prefix +:+ errorMessage_caught error;
     structuredContent := None;
     isError := true |}.

(** A result with text only. *)
Definition plain (content : string) : ToolResult :=
  {| text := content; structuredContent := None; isError := false |}.

(** A result in the JSON format: the value serialized, and the structured
    content. *)
Definition structured {stringify : Stringify} (value content : JSON)
  : ToolResult :=
  {| text := JSON_stringify value;
     structuredContent := Some content;
     isError := false |}.

(** The [output] object of the search tools. *)
Definition search_output (total total_pages page per_page : Z) (results : JSON)
  : JSON :=
  JObject [ ("total", JNumber total);
            ("total_pages", JNumber total_pages);
            ("page", JNumber page);
            ("per_page", JNumber per_page);
            ("results", results) ].

(** [{ photos }] *)
Definition photos_content (photos : JSON) : JSON := JObject [("photos", photos)].

Section Tools.
Context {host : Host} {locale : Locale} {stringify : Stringify}
  {untyped : Untyped}.
Import JS.

(** *** [unsplash_search_photos] *)

(** The parameter object of lines 99 to 107; a spread of [undefined] or
    of the empty string adds nothing. *)
Definition search_photos_request (params : SearchPhotosParams.t) : Params :=
  [ ("query", Some (SString (SearchPhotosParams.query params)));
    ("page", Some (SNumber (SearchPhotosParams.page params)));
    ("per_page", Some (SNumber (SearchPhotosParams.per_page params))) ]
  ++ match SearchPhotosParams.orientation params with
     | Some orientation =>
         [("orientation", Some (SString (PhotoOrientation.value orientation)))]
     | None => []
     end
  ++ (if truthy (SearchPhotosParams.color params)
      then [("color", Some (SString (interpolate (SearchPhotosParams.color params))))]
      else [])
  ++ [ ("content_filter",
        Some (SString (ContentFilter.value (SearchPhotosParams.content_filter params))));
       ("order_by",
        Some (SString (PhotoOrderBy.value (SearchPhotosParams.order_by params)))) ].

(** [`\n\n*Use page=${page + 1} to see more results*`] when there is a
    further page. *)
Definition more_results_hint (page total_pages : Z) : string :=
  if page <? total_pages
  then LF +:+ LF +:+ "*Use page=" +:+ number_toString (add page 1)
         +:+ " to see more results*"
  else EmptyString.

(** Lines 131 to 138: the document before the length guard. *)
Definition search_photos_markdown (params : SearchPhotosParams.t)
    (data : SearchResponse.t Photo.t) : string :=
  let markdown :=
    "# Search Results for " +:+ DQ +:+ SearchPhotosParams.query params +:+ DQ
      +:+ LF +:+ LF in
  let markdown :=
    markdown +:+ "Found " +:+ toLocaleString (SearchResponse.total data)
      +:+ " photos (Page " +:+ number_toString (SearchPhotosParams.page params)
      +:+ " of " +:+ number_toString (SearchResponse.total_pages data) +:+ ")"
      +:+ LF +:+ LF in
  let markdown :=
    markdown +:+ formatPhotosListMarkdown (SearchResponse.results data) in
  markdown
    +:+ more_results_hint (SearchPhotosParams.page params)
          (SearchResponse.total_pages data).

Definition unsplash_search_photos (client : UnsplashClient)
    (params : SearchPhotosParams.t) : ToolResult :=
  match makeRequest client "/search/photos"
          (Some (search_photos_request params)) with
  | Throw error => caught "Error searching photos: " error
  | Return body =>
      match Decode.search Decode.photo body, Decode.property body "results" with
      | Some data, Some results =>
          if (List.length (SearchResponse.results data) =? 0)%nat then
            plain ("No photos found for query: " +:+ DQ
                     +:+ SearchPhotosParams.query params +:+ DQ)
          else
            let output :=
              search_output
                (SearchResponse.total data) (SearchResponse.total_pages data)
                (SearchPhotosParams.page params)
                (SearchPhotosParams.per_page params) results in
            match SearchPhotosParams.response_format params with
            | ResponseFormat.JSON => structured output output
            | ResponseFormat.MARKDOWN =>
                plain (truncateIfNeeded_default (search_photos_markdown params data))
            end
      | _, _ => untyped_search_photos params body
      end
  end.

(** *** [unsplash_get_photo] *)


(** *** [unsplash_get_random] *)

(** Lines 278 to 288: the two fixed entries, then [query] and
    [orientation] when they are truthy. *)
Definition random_photo_request (params : GetRandomPhotoParams.t) : Params :=
  let requestParams :=
    [ ("content_filter",
       Some (SString (ContentFilter.value (GetRandomPhotoParams.content_filter params))));
      ("count", Some (SNumber (GetRandomPhotoParams.count params))) ] in
  let requestParams :=
    if truthy (GetRandomPhotoParams.query params)
    then requestParams
           ++ [("query", Some (SString (interpolate (GetRandomPhotoParams.query params))))]
    else requestParams in
  match GetRandomPhotoParams.orientation params with
  | Some orientation =>
      requestParams
        ++ [("orientation", Some (SString (PhotoOrientation.value orientation)))]
  | None => requestParams
  end.

Definition random_photo_markdown (params : GetRandomPhotoParams.t)
    (photos : list Photo.t) : string :=
  let markdown :=
    "# Random Photos"
      +:+ (if truthy (GetRandomPhotoParams.query params)
           then " (" +:+ interpolate (GetRandomPhotoParams.query params) +:+ ")"
           else EmptyString)
      +:+ LF +:+ LF in
  markdown +:+ formatPhotosListMarkdown photos.

(** [Array.isArray(data) ? data : [data]] *)
Definition as_array (data : JSON) : JSON :=
  match data with
  | JArray _ => data
  | _ => JArray [data]
  end.

Definition unsplash_get_random (client : UnsplashClient)
    (params : GetRandomPhotoParams.t) : ToolResult :=
  match makeRequest client "/photos/random"
          (Some (random_photo_request params)) with
  | Throw error => caught "Error fetching random photos: " error
  | Return body =>
      match Decode.photo_or_photos body with
      | Some photos =>
          match GetRandomPhotoParams.response_format params with
          | ResponseFormat.JSON =>
              structured (as_array body) (photos_content (as_array body))
          | ResponseFormat.MARKDOWN => plain (random_photo_markdown params photos)
          end
      | None => untyped_get_random params body
      end
  end.

(** *** [unsplash_list_photos] *)

Definition list_photos_request (params : ListPhotosParams.t) : Params :=
  [ ("page", Some (SNumber (ListPhotosParams.page params)));
    ("per_page", Some (SNumber (ListPhotosParams.per_page params)));
    ("order_by", Some (SString (FeedOrder.value (ListPhotosParams.order_by params)))) ].

Definition list_photos_markdown (params : ListPhotosParams.t)
    (photos : list Photo.t) : string :=
  let markdown :=
    "# Editorial Photos (" +:+ FeedOrder.value (ListPhotosParams.order_by params)
      +:+ ")" +:+ LF +:+ LF in
  let markdown :=
    markdown +:+ "Page " +:+ number_toString (ListPhotosParams.page params)
      +:+ LF +:+ LF in
  markdown +:+ formatPhotosListMarkdown photos.

Definition unsplash_list_photos (client : UnsplashClient)
    (params : ListPhotosParams.t) : ToolResult :=
  match makeRequest client "/photos" (Some (list_photos_request params)) with
  | Throw error => caught "Error listing photos: " error
  | Return body =>
      match Decode.photos body with
      | Some photos =>
          if (List.length photos =? 0)%nat then plain "No photos found"
          else
            match ListPhotosParams.response_format params with
            | ResponseFormat.JSON => structured body (photos_content body)
            | ResponseFormat.MARKDOWN =>
                plain (truncateIfNeeded_default (list_photos_markdown params photos))
            end
      | None => untyped_list_photos params body
      end
  end.

(** *** [unsplash_get_statistics] *)


(** *** [unsplash_track_download], with the console passed through *)

Definition unsplash_track_download (client : UnsplashClient)
    (params : DownloadPhotoParams.t) (console : list LogEntry)
  : ToolResult * list LogEntry :=
  match makeRequest client ("/photos/" +:+ DownloadPhotoParams.id params) None with
  | Throw error => (caught "Error tracking download: " error, console)
  | Return body =>
      match Decode.photo body with
      | Some photo =>
          match trackDownload client
                  (PhotoLinks.download_location (Photo.links photo)) console with
          | (Throw error, console') =>
              (caught "Error tracking download: " error, console')
          | (Return _, console') =>
              (plain ("Download tracked for photo " +:+ DownloadPhotoParams.id params
                        +:+ ". You can download the photo from: "
                        +:+ PhotoUrls.regular (Photo.urls photo)),
               console')
          end
      | None => untyped_track_download params body console
      end
  end.

(** *** [unsplash_search_collections] *)

Definition search_request (params : SearchParams.t) : Params :=
  [ ("query", Some (SString (SearchParams.query params)));
    ("page", Some (SNumber (SearchParams.page params)));
    ("per_page", Some (SNumber (SearchParams.per_page params))) ].

Definition search_collections_markdown (params : SearchParams.t)
    (data : SearchResponse.t Collection.t) : string :=
  let markdown :=
    "# Collection Search Results for " +:+ DQ +:+ SearchParams.query params
      +:+ DQ +:+ LF +:+ LF in
  let markdown :=
    markdown +:+ "Found " +:+ toLocaleString (SearchResponse.total data)
      +:+ " collections (Page " +:+ number_toString (SearchParams.page params)
      +:+ " of " +:+ number_toString (SearchResponse.total_pages data) +:+ ")"
      +:+ LF +:+ LF in
  let markdown :=
    markdown +:+ formatCollectionsListMarkdown (SearchResponse.results data) in
  markdown
    +:+ more_results_hint (SearchParams.page params) (SearchResponse.total_pages data).

Definition unsplash_search_collections (client : UnsplashClient)
    (params : SearchParams.t) : ToolResult :=
  match makeRequest client "/search/collections"
          (Some (search_request params)) with
  | Throw error => caught "Error searching collections: " error
  | Return body =>
      match Decode.search Decode.collection body,
            Decode.property body "results" with
      | Some data, Some results =>
          if (List.length (SearchResponse.results data) =? 0)%nat then
            plain ("No collections found for query: " +:+ DQ
                     +:+ SearchParams.query params +:+ DQ)
          else
            let output :=
              search_output
                (SearchResponse.total data) (SearchResponse.total_pages data)
                (SearchParams.page params) (SearchParams.per_page params)
                results in
            match SearchParams.response_format params with
            | ResponseFormat.JSON => structured output output
            | ResponseFormat.MARKDOWN =>
                plain (truncateIfNeeded_default
                         (search_collections_markdown params data))
            end
      | _, _ => untyped_search_collections params body
      end
  end.

(** *** [unsplash_get_collection_photos] *)

Definition collection_photos_request (params : GetCollectionPhotosParams.t)
  : Params :=
  let requestParams :=
    [ ("page", Some (SNumber (GetCollectionPhotosParams.page params)));
      ("per_page", Some (SNumber (GetCollectionPhotosParams.per_page params))) ] in
  match GetCollectionPhotosParams.orientation params with
  | Some orientation =>
      requestParams
        ++ [("orientation", Some (SString (PhotoOrientation.value orientation)))]
  | None => requestParams
  end.

Definition collection_photos_markdown (params : GetCollectionPhotosParams.t)
    (photos : list Photo.t) : string :=
  let markdown :=
    "# Photos from Collection " +:+ GetCollectionPhotosParams.id params
      +:+ LF +:+ LF in
  let markdown :=
    markdown +:+ "Page " +:+ number_toString (GetCollectionPhotosParams.page params)
      +:+ LF +:+ LF in
  markdown +:+ formatPhotosListMarkdown photos.

Definition unsplash_get_collection_photos (client : UnsplashClient)
    (params : GetCollectionPhotosParams.t) : ToolResult :=
  match makeRequest client
          ("/collections/" +:+ GetCollectionPhotosParams.id params +:+ "/photos")
          (Some (collection_photos_request params)) with
  | Throw error => caught "Error fetching collection photos: " error
  | Return body =>
      match Decode.photos body with
      | Some photos =>
          if (List.length photos =? 0)%nat then
            plain ("No photos found in collection "
                     +:+ GetCollectionPhotosParams.id params)
          else
            match GetCollectionPhotosParams.response_format params with
            | ResponseFormat.JSON => structured body (photos_content body)
            | ResponseFormat.MARKDOWN =>
                plain (truncateIfNeeded_default
                         (collection_photos_markdown params photos))
            end
      | None => untyped_get_collection_photos params body
      end
  end.

(** *** [unsplash_search_users] *)

Definition search_users_markdown (params : SearchParams.t)
    (data : SearchResponse.t User.t) : string :=
  let markdown :=
    "# User Search Results for " +:+ DQ +:+ SearchParams.query params
      +:+ DQ +:+ LF +:+ LF in
  let markdown :=
    markdown +:+ "Found " +:+ toLocaleString (SearchResponse.total data)
      +:+ " users (Page " +:+ number_toString (SearchParams.page params)
      +:+ " of " +:+ number_toString (SearchResponse.total_pages data) +:+ ")"
      +:+ LF +:+ LF in
  let markdown :=
    markdown +:+ formatUsersListMarkdown (SearchResponse.results data) in
  markdown
    +:+ more_results_hint (SearchParams.page params) (SearchResponse.total_pages data).

Definition unsplash_search_users (client : UnsplashClient)
    (params : SearchParams.t) : ToolResult :=
  match makeRequest client "/search/users" (Some (search_request params)) with
  | Throw error => caught "Error searching users: " error
  | Return body =>
      match Decode.search Decode.user body, Decode.property body "results" with
      | Some data, Some results =>
          if (List.length (SearchResponse.results data) =? 0)%nat then
            plain ("No users found for query: " +:+ DQ
                     +:+ SearchParams.query params +:+ DQ)
          else
            let output :=
              search_output
                (SearchResponse.total data) (SearchResponse.total_pages data)
                (SearchParams.page params) (SearchParams.per_page params)
                results in
            match SearchParams.response_format params with
            | ResponseFormat.JSON => structured output output
            | ResponseFormat.MARKDOWN =>
                plain (truncateIfNeeded_default (search_users_markdown params data))
            end
      | _, _ => untyped_search_users params body
      end
  end.

(** *** [unsplash_get_user_photos] *)

Definition user_photos_request (params : GetUserPhotosParams.t) : Params :=
  let requestParams :=
    [ ("page", Some (SNumber (GetUserPhotosParams.page params)));
      ("per_page", Some (SNumber (GetUserPhotosParams.per_page params)));
      ("order_by",
       Some (SString (FeedOrder.value (GetUserPhotosParams.order_by params)))) ] in
  match GetUserPhotosParams.orientation params with
  | Some orientation =>
      requestParams
        ++ [("orientation", Some (SString (PhotoOrientation.value orientation)))]
  | None => requestParams
  end.

Definition user_photos_markdown (params : GetUserPhotosParams.t)
    (photos : list Photo.t) : string :=
  let markdown :=
    "# Photos by @" +:+ GetUserPhotosParams.username params +:+ LF +:+ LF in
  let markdown :=
    markdown +:+ "Page " +:+ number_toString (GetUserPhotosParams.page params)
      +:+ " (" +:+ FeedOrder.value (GetUserPhotosParams.order_by params) +:+ ")"
      +:+ LF +:+ LF in
  markdown +:+ formatPhotosListMarkdown photos.

Definition unsplash_get_user_photos (client : UnsplashClient)
    (params : GetUserPhotosParams.t) : ToolResult :=
  match makeRequest client
          ("/users/" +:+ GetUserPhotosParams.username params +:+ "/photos")
          (Some (user_photos_request params)) with
  | Throw error => caught "Error fetching user photos: " error
  | Return body =>
      match Decode.photos body with
      | Some photos =>
          if (List.length photos =? 0)%nat then
            plain ("No photos found for user: "
                     +:+ GetUserPhotosParams.username params)
          else
            match GetUserPhotosParams.response_format params with
            | ResponseFormat.JSON => structured body (photos_content body)
            | ResponseFormat.MARKDOWN =>
                plain (truncateIfNeeded_default (user_photos_markdown params photos))
            end
      | None => untyped_get_user_photos params body
      end
  end.

End Tools.

(** ** A reference host for the scenarios

    [ReferenceParser.parse] reads the JSON texts made of objects, arrays,
    strings with the two-character escapes, integers and the three
    literals; on these it returns what [JSON.parse] returns.  It is no
    model of [JSON.parse] on other texts: a text it does not read, be it a
    JSON text with a [\u] escape, a fraction or an exponent, is rejected
    with a [SyntaxError] whose message is its own.  It is used in
    scenarios only; the properties are stated for every host. *)
Module ReferenceParser.

(** Tab, line feed, carriage return and space. *)
Definition whitespace (c : ascii) : bool :=
  match c with
  | "009" | "010" | "013" | " " => true
  | _ => false
  end%char.

Fixpoint skip_whitespace (s : string) : string :=
  match s with
  | String c rest =>
      if whitespace c then skip_whitespace rest else s
  | EmptyString => s
  end.

Definition unescape (c : ascii) : option ascii :=
  match c with
  | "034" => Some "034"
  | "\" => Some "\"
  | "/" => Some "/"
  | "b" => Some "008"
  | "f" => Some "012"
  | "n" => Some "010"
  | "r" => Some "013"
  | "t" => Some "009"
  | _ => None
  end%char.

(** The characters of a string after its opening quote, up to the
    closing one. *)
Fixpoint string_body (s : string) : option (string * string) :=
  match s with
  | EmptyString => None
  | String "034" rest => Some (EmptyString, rest)
  | String "\" (String e rest) =>
      c ← unescape e;
      '(text, rest') ← string_body rest;
      Some (String c text, rest')
  | String c rest =>
      if (N_of_ascii c <? 32)%N then None
      else
        '(text, rest') ← string_body rest;
        Some (String c text, rest')
  end.

Fixpoint digits (s : string) (acc : Z) : Z * string :=
  match s with
  | String c rest =>
      match Ascii.is_nat c with
      | Some d => digits rest (10 * acc + Z.of_nat d)
      | None => (acc, s)
      end
  | EmptyString => (acc, s)
  end.

(** An integer: an optional minus sign, then [0] or digits that do not
    start with [0]; a fraction or an exponent is not read. *)
Definition integer (s : string) : option (Z * string) :=
  let '(negative, s) :=
    match s with
    | String "-" rest => (true, rest)
    | _ => (false, s)
    end in
  match s with
  | String c rest =>
      match Ascii.is_nat c with
      | None => None
      | Some _ =>
          let '(n, rest') := digits s 0 in
          let leading_zero :=
            match s with
            | String "0" (String d _) =>
                match Ascii.is_nat d with Some _ => true | None => false end
            | _ => false
            end in
          match rest' with
          | String "." _ | String "e" _ | String "E" _ => None
          | _ =>
              if leading_zero : bool then None
              else Some (if negative : bool then - n else n, rest')
          end
      end
  | EmptyString => None
  end.

Fixpoint elements (value : string -> option (JSON * string)) (fuel : nat)
    (s : string) (acc : list JSON) : option (list JSON * string) :=
  match fuel with
  | O => None
  | S fuel' =>
      '(v, rest) ← value s;
      match skip_whitespace rest with
      | String "," rest' => elements value fuel' rest' (acc ++ [v])
      | String "]" rest' => Some (acc ++ [v], rest')
      | _ => None
      end
  end.

Fixpoint members (value : string -> option (JSON * string)) (fuel : nat)
    (s : string) (acc : list (string * JSON))
    : option (list (string * JSON) * string) :=
  match fuel with
  | O => None
  | S fuel' =>
      match skip_whitespace s with
      | String "034" rest =>
          '(key, rest) ← string_body rest;
          match skip_whitespace rest with
          | String ":" rest =>
              '(v, rest) ← value rest;
              match skip_whitespace rest with
              | String "," rest' => members value fuel' rest' (acc ++ [(key, v)])
              | String "}" rest' => Some (acc ++ [(key, v)], rest')
              | _ => None
              end
          | _ => None
          end
      | _ => None
      end
  end.

Definition literal (word : string) (v : JSON) (s : string)
  : option (JSON * string) :=
  if String.prefix word s
  then Some (v, String.substring (String.length word)
                  (String.length s - String.length word) s)
  else None.

Fixpoint value (fuel : nat) (s : string) : option (JSON * string) :=
  match fuel with
  | O => None
  | S fuel' =>
      match skip_whitespace s with
      | String "{" rest =>
          match skip_whitespace rest with
          | String "}" rest' => Some (JObject [], rest')
          | _ =>
              '(ms, rest') ← members (value fuel') fuel' rest [];
              Some (JObject ms, rest')
          end
      | String "[" rest =>
          match skip_whitespace rest with
          | String "]" rest' => Some (JArray [], rest')
          | _ =>
              '(vs, rest') ← elements (value fuel') fuel' rest [];
              Some (JArray vs, rest')
          end
      | String "034" rest =>
          '(text, rest') ← string_body rest;
          Some (JString text, rest')
      | String "t" _ as s' => literal "true" (JBool true) s'
      | String "f" _ as s' => literal "false" (JBool false) s'
      | String "n" _ as s' => literal "null" JNull s'
      | s' =>
          '(n, rest') ← integer s';
          Some (JNumber n, rest')
      end
  end.

Definition parse (text : string) : JS.completion JS.Error JSON :=
  match value (S (String.length text)) text with
  | Some (v, rest) =>
      match skip_whitespace rest with
      | EmptyString => JS.Return v
      | _ => JS.Throw (JS.SyntaxError "Unexpected non-whitespace character after JSON")
      end
  | None => JS.Throw (JS.SyntaxError "Unexpected token in JSON")
  end.

End ReferenceParser.

(** A host whose [fetch] ends the same way for every request, as the
    mocks of [unsplash-client.test.ts] do. *)
Definition mock_host (outcome : FetchOutcome) : Host :=
  {| JSON_parse := ReferenceParser.parse; fetch := fun _ => outcome |}.

(** The [en-US] locale of a process in the UTC time zone, for the
    scenarios: the digits of an integer grouped by three, and [M/D/YYYY]
    for an ISO 8601 time stamp that is itself in UTC (the suffix [Z] of
    the tests' time stamps), whose date is then the date it spells.  A
    time stamp with another offset is not converted. *)
Module EnUS.

Fixpoint group (reversed_digits : list ascii) : list ascii :=
  match reversed_digits with
  | a :: b :: c :: ((_ :: _) as rest) => a :: b :: c :: ","%char :: group rest
  | _ => reversed_digits
  end.

Definition format_number (n : Z) : string :=
  (if n <? 0 then "-" else EmptyString)
    +:+ string_of_list_ascii
          (List.rev (group (List.rev
             (list_ascii_of_string (pretty (Z.abs n)))))).

Definition all_digits (s : string) : bool :=
  List.forallb (fun c => match Ascii.is_nat c with Some _ => true | None => false end)
               (list_ascii_of_string s).

Definition strip_zero (s : string) : string :=
  match s with
  | String "0" rest => rest
  | _ => s
  end.

Definition format_date (iso : string) : string :=
  let year := String.substring 0 4 iso in
  let month := String.substring 5 2 iso in
  let day := String.substring 8 2 iso in
  if all_digits (year +:+ month +:+ day)
     && String.eqb (String.substring 4 1 iso) "-"
     && String.eqb (String.substring 7 1 iso) "-"
     && (10 <=? String.length iso)%nat
  then strip_zero month +:+ "/" +:+ strip_zero day +:+ "/" +:+ year
  else "Invalid Date".

Definition locale : Locale :=
  {| toLocaleString := format_number;
     toLocaleDateString := format_date |}.

End EnUS.

(** ** Sample inputs: the records and mocks of the tests, and variants *)

Module Sample.

Definition user : User.t := {|
  User.id := "user-1";
  User.username := "testuser";
  User.name := "Test User";
  User.bio := Some "Professional photographer";
  User.location := Some "New York";
  User.total_likes := 1000;
  User.total_photos := 150;
  User.total_collections := 10;
  User.instagram_username := Some "testuser";
  User.portfolio_url := Some "https://example.com";
  User.links := {| UserLinks.html := "https://unsplash.com/@testuser" |}
|}.

(** The curator of the collection test: no optional attribute. *)
Definition curator : User.t := {|
  User.id := "user-1";
  User.username := "curator";
  User.name := "Test Curator";
  User.bio := None;
  User.location := None;
  User.total_likes := 0;
  User.total_photos := 0;
  User.total_collections := 0;
  User.instagram_username := None;
  User.portfolio_url := None;
  User.links := {| UserLinks.html := "https://unsplash.com/@curator" |}
|}.

Definition photo : Photo.t := {|
  Photo.id := "test-123";
  Photo.created_at := "2024-01-01T00:00:00Z";
  Photo.width := 1920;
  Photo.height := 1080;
  Photo.color := "#000000";
  Photo.description := Some "Test photo";
  Photo.alt_description := Some "A test photo";
  Photo.likes := 42;
  Photo.urls := {| PhotoUrls.regular := "https://example.com/regular" |};
  Photo.links := {|
    PhotoLinks.html := "https://unsplash.com/photos/test-123";
    PhotoLinks.download_location :=
      "https://api.unsplash.com/photos/test-123/download" |};
  Photo.user := user;
  Photo.location := Some {| Location.name := Some "Test Location" |};
  Photo.tags := Some [ {| Tag.title := "test" |}; {| Tag.title := "photo" |} ]
|}.

(** The same photo with every optional attribute absent. *)
Definition bare_photo : Photo.t := {|
  Photo.id := "test-123";
  Photo.created_at := "2024-01-01T00:00:00Z";
  Photo.width := 1920;
  Photo.height := 1080;
  Photo.color := "#000000";
  Photo.description := None;
  Photo.alt_description := None;
  Photo.likes := 42;
  Photo.urls := {| PhotoUrls.regular := "https://example.com/regular" |};
  Photo.links := {|
    PhotoLinks.html := "https://unsplash.com/photos/test-123";
    PhotoLinks.download_location :=
      "https://api.unsplash.com/photos/test-123/download" |};
  Photo.user := curator;
  Photo.location := None;
  Photo.tags := None
|}.

Definition collection : Collection.t := {|
  Collection.id := "coll-123";
  Collection.title := "Test Collection";
  Collection.description := None;
  Collection.published_at := "2024-01-01T00:00:00Z";
  Collection.total_photos := 25;
  Collection.user := curator;
  Collection.links :=
    {| CollectionLinks.html := "https://unsplash.com/collections/coll-123" |}
|}.

Definition counter (total change : Z) : Counter.t :=
  {| Counter.total := total;
     Counter.historical := {| Historical.change := change |} |}.

Definition stats : PhotoStatistics.t := {|
  PhotoStatistics.id := "photo-123";
  PhotoStatistics.downloads := counter 5000 250;
  PhotoStatistics.views := counter 50000 (-100);
  PhotoStatistics.likes := counter 500 10
|}.

(** The same statistics with no change in the downloads. *)
Definition flat_stats : PhotoStatistics.t := {|
  PhotoStatistics.id := "photo-123";
  PhotoStatistics.downloads := counter 5000 0;
  PhotoStatistics.views := counter 50000 (-100);
  PhotoStatistics.likes := counter 500 10
|}.

Definition client : UnsplashClient := {| accessKey := "test-key" |}.

(** [{"errors":["Unauthorized"]}] *)
Definition unauthorized_body : string :=
  "{" +:+ JS.DQ +:+ "errors" +:+ JS.DQ +:+ ":[" +:+ JS.DQ +:+ "Unauthorized"
    +:+ JS.DQ +:+ "]}".

(** [{"errors":[{"toString":0}]}] *)
Definition unconvertible_body : string :=
  "{" +:+ JS.DQ +:+ "errors" +:+ JS.DQ +:+ ":[{" +:+ JS.DQ +:+ "toString"
    +:+ JS.DQ +:+ ":0}]}".

(** The photo of the tests with another caption. *)
Definition captioned (caption : string) : Photo.t := {|
  Photo.id := Photo.id photo;
  Photo.created_at := Photo.created_at photo;
  Photo.width := Photo.width photo;
  Photo.height := Photo.height photo;
  Photo.color := Photo.color photo;
  Photo.description := Photo.description photo;
  Photo.alt_description := Some caption;
  Photo.likes := Photo.likes photo;
  Photo.urls := Photo.urls photo;
  Photo.links := Photo.links photo;
  Photo.user := Photo.user photo;
  Photo.location := Photo.location photo;
  Photo.tags := Photo.tags photo
|}.

(** The parsed bodies that carry these records: an optional attribute
    that is absent has no member. *)
Definition member_if_present (key : string) (value : option string)
  : list (string * JSON) :=
  match value with
  | Some s => [(key, JString s)]
  | None => []
  end.

Definition body_of_user (u : User.t) : JSON :=
  JObject
    ([ ("id", JString (User.id u));
       ("username", JString (User.username u));
       ("name", JString (User.name u)) ]
     ++ member_if_present "bio" (User.bio u)
     ++ member_if_present "location" (User.location u)
     ++ [ ("total_likes", JNumber (User.total_likes u));
          ("total_photos", JNumber (User.total_photos u));
          ("total_collections", JNumber (User.total_collections u)) ]
     ++ member_if_present "instagram_username" (User.instagram_username u)
     ++ member_if_present "portfolio_url" (User.portfolio_url u)
     ++ [ ("links", JObject [("html", JString (UserLinks.html (User.links u)))]) ]).

Definition body_of_photo (p : Photo.t) : JSON :=
  JObject
    ([ ("id", JString (Photo.id p));
       ("created_at", JString (Photo.created_at p));
       ("width", JNumber (Photo.width p));
       ("height", JNumber (Photo.height p));
       ("color", JString (Photo.color p)) ]
     ++ member_if_present "description" (Photo.description p)
     ++ member_if_present "alt_description" (Photo.alt_description p)
     ++ [ ("likes", JNumber (Photo.likes p));
          ("urls", JObject [("regular", JString (PhotoUrls.regular (Photo.urls p)))]);
          ("links",
           JObject [ ("html", JString (PhotoLinks.html (Photo.links p)));
                     ("download_location",
                      JString (PhotoLinks.download_location (Photo.links p))) ]);
          ("user", body_of_user (Photo.user p)) ]
     ++ match Photo.location p with
        | Some place =>
            [("location", JObject (member_if_present "name" (Location.name place)))]
        | None => []
        end
     ++ match Photo.tags p with
        | Some labels =>
            [("tags",
              JArray (List.map (fun t => JObject [("title", JString (Tag.title t))])
                               labels))]
        | None => []
        end).

Definition body_of_photos (photos : list Photo.t) : JSON :=
  JArray (List.map body_of_photo photos).

Definition body_of_search (total total_pages : Z) (results : JSON) : JSON :=
  JObject [ ("total", JNumber total);
            ("total_pages", JNumber total_pages);
            ("results", results) ].

(** The JSON text of a parsed body, without white space. *)
Fixpoint escape (s : string) : string :=
  match s with
  | EmptyString => EmptyString
  | String c rest =>
      match c with
      | "034" => String "\" (String "034" (escape rest))
      | "\" => String "\" (String "\" (escape rest))
      | "008" => String "\" (String "b" (escape rest))
      | "009" => String "\" (String "t" (escape rest))
      | "010" => String "\" (String "n" (escape rest))
      | "012" => String "\" (String "f" (escape rest))
      | "013" => String "\" (String "r" (escape rest))
      | _ => String c (escape rest)
      end%char
  end.

Definition quote (s : string) : string := JS.DQ +:+ escape s +:+ JS.DQ.

Fixpoint text_of (v : JSON) : string :=
  match v with
  | JNull => "null"
  | JBool b => JS.boolean_toString b
  | JNumber n => pretty n
  | JString s => quote s
  | JArray items => "[" +:+ JS.join "," (List.map text_of items) +:+ "]"
  | JObject members =>
      "{"
        +:+ JS.join ","
              (List.map (fun m => quote (fst m) +:+ ":" +:+ text_of (snd m)) members)
        +:+ "}"
  end.

(** A host that answers every request with status 200 and the JSON text
    of [data]. *)
Definition host_answering (data : JSON) : Host :=
  mock_host (Fulfilled {| status := 200; body := text_of data |}).

(** A serializer for the scenarios that do not look at the text. *)
Definition stringify : Stringify := fun _ => "{}".

(** Handlers that answer every body outside the declared types with an
    error result. *)
Definition type_error : ToolResult :=
  {| text := "TypeError"; structuredContent := None; isError := true |}.

Definition untyped : Untyped :=
  {| untyped_search_photos := fun _ _ => type_error;
     untyped_get_photo := fun _ _ => type_error;
     untyped_get_random := fun _ _ => type_error;
     untyped_list_photos := fun _ _ => type_error;
     untyped_get_statistics := fun _ _ => type_error;
     untyped_track_download := fun _ _ console => (type_error, console);
     untyped_search_collections := fun _ _ => type_error;
     untyped_get_collection_photos := fun _ _ => type_error;
     untyped_search_users := fun _ _ => type_error;
     untyped_get_user_photos := fun _ _ => type_error |}.

Definition search_params : SearchPhotosParams.t := {|
  SearchPhotosParams.query := "nature";
  SearchPhotosParams.page := 1;
  SearchPhotosParams.per_page := 10;
  SearchPhotosParams.orientation := Some PhotoOrientation.LANDSCAPE;
  SearchPhotosParams.content_filter := ContentFilter.LOW;
  SearchPhotosParams.color := None;
  SearchPhotosParams.order_by := PhotoOrderBy.RELEVANT;
  SearchPhotosParams.response_format := ResponseFormat.MARKDOWN
|}.

Definition search_response : SearchResponse.t Photo.t := {|
  SearchResponse.total := 2;
  SearchResponse.total_pages := 1;
  SearchResponse.results := [photo; bare_photo]
|}.

Definition search_body : JSON :=
  body_of_search 2 1 (body_of_photos [photo; bare_photo]).

Definition list_params : ListPhotosParams.t := {|
  ListPhotosParams.page := 1;
  ListPhotosParams.per_page := 10;
  ListPhotosParams.order_by := FeedOrder.latest;
  ListPhotosParams.response_format := ResponseFormat.MARKDOWN
|}.

Definition random_params : GetRandomPhotoParams.t := {|
  GetRandomPhotoParams.query := None;
  GetRandomPhotoParams.orientation := None;
  GetRandomPhotoParams.content_filter := ContentFilter.LOW;
  GetRandomPhotoParams.count := 1;
  GetRandomPhotoParams.response_format := ResponseFormat.MARKDOWN
|}.

(** A photo whose caption has as many characters as the character
    limit. *)
Definition long_photo : Photo.t :=
  captioned (JS.repeat "a" (Z.to_nat CHARACTER_LIMIT)).

End Sample.

(** ** Vocabulary of the properties *)

(** No element of [parts] starts with [label]. *)
Definition no_line (label : string) (parts : list string) : Prop :=
  Forall (fun line => String.prefix label line = false) parts.

(** The entries that have a value, with the value as [String] prints it. *)
Definition present (entries : Params) : list (string * string) :=
  List.flat_map
    (fun entry =>
       match snd entry with
       | Some value => [(fst entry, String_of value)]
       | None => []
       end)
    entries.

(** The query string in the words of the specification: each present
    entry as [key=stringified_value], in order. *)
Definition query_string_as_specified (params : option Params) : string :=
  JS.join "&"
    (List.map (fun p => fst p +:+ "=" +:+ snd p) (present (default [] params))).

(** Every code unit of [s] is one the serializer leaves as it is. *)
Fixpoint all_unreserved (s : string) : bool :=
  match s with
  | EmptyString => true
  | String c s' => URLSearchParams.unreserved c && all_unreserved s'
  end.

(** The error thrown for a failed response [r] with the message [msg]. *)
Definition failure (r : Response) (msg : string) : JS.completion Thrown JSON :=
  JS.Throw (ThrownAPIError {| message := msg;
                              statusCode := Some (status r);
                              response := Some (BodyText (body r)) |}).

(** The error thrown when an [Error] is caught by the outer handler. *)
Definition network_error (e : JS.Error) : JS.completion Thrown JSON :=
  JS.Throw (ThrownAPIError {| message := "Network error: " +:+ JS.error_message e;
                              statusCode := None;
                              response := Some (Cause e) |}).


(** The line of an optional field: there when the field is truthy. *)
Definition optional_line (label : string) (field : option string) : list string :=
  if JS.truthy field then [label +:+ JS.interpolate field] else [].

(** The number of times the code unit [c] occurs in [s]. *)
Fixpoint occurrences (c : ascii) (s : string) : nat :=
  match s with
  | EmptyString => O
  | String d s' => ((if Ascii.eqb c d then 1 else 0) + occurrences c s')%nat
  end.

(** Every code unit of [s] satisfies [P]. *)
Fixpoint string_forall (P : ascii -> bool) (s : string) : bool :=
  match s with
  | EmptyString => true
  | String c s' => P c && string_forall P s'
  end.

(** The code units a serialized name or value is made of. *)
Definition component_char (c : ascii) : bool :=
  URLSearchParams.unreserved c || Ascii.eqb c "+"%char || Ascii.eqb c "%"%char.

(** The code units a query string is made of. *)
Definition query_char (c : ascii) : bool :=
  component_char c || Ascii.eqb c "="%char || Ascii.eqb c "&"%char.

(** The value of an upper-case hexadecimal digit. *)
Definition hex_value (c : ascii) : N :=
  let n := N_of_ascii c in
  if ((48 <=? n) && (n <=? 57))%N then (n - 48)%N else (n - 55)%N.

(** The reading of a serialized name or value that the form-urlencoded
    parser of the URL standard makes: [+] is a space, [%XX] a byte, and
    two bytes that start with 192 or more are one code unit. *)
Fixpoint percent_decode (s : string) : string :=
  match s with
  | EmptyString => EmptyString
  | String "%" (String h1 (String l1 rest)) =>
      let b := (16 * hex_value h1 + hex_value l1)%N in
      if (b <? 192)%N then String (ascii_of_N b) (percent_decode rest)
      else
        match rest with
        | String "%" (String h2 (String l2 rest')) =>
            String (ascii_of_N ((b - 192) * 64
                                + (16 * hex_value h2 + hex_value l2 - 128)))
                   (percent_decode rest')
        | _ => String (ascii_of_N b) (percent_decode rest)
        end
  | String "+" rest => String " " (percent_decode rest)
  | String c rest => String c (percent_decode rest)
  end.

(** A serialized pair, [name=value]. *)
Definition serialized_pair (p : string * string) : string :=
  URLSearchParams.serialize_string (fst p) +:+ "="
    +:+ URLSearchParams.serialize_string (snd p).


(** A result is the guarded [document]: its text is
    [truncateIfNeeded(document)], with no structured content, and is
    therefore at most [CHARACTER_LIMIT] characters long. *)
Definition guarded (result : ToolResult) (document : string) : Prop :=
  result = plain (truncateIfNeeded_default document)
  /\ (JS.string_value document -> JS.length (text result) <= CHARACTER_LIMIT).

(** * Properties *)

(** *** Lengths of strings *)

Lemma length_app (s t : string) :
  String.length (s +:+ t) = (String.length s + String.length t)%nat.
Proof.
  induction s as [|c s IH]; [reflexivity|].
  change (String c s +:+ t) with (String c (s +:+ t)).
  simpl. now rewrite IH.
Qed.

Lemma JS_length_app (s t : string) :
  JS.length (s +:+ t) = JS.length s + JS.length t.
Proof. unfold JS.length. rewrite length_app. lia. Qed.

Lemma app_assoc (s t u : string) : (s +:+ t) +:+ u = s +:+ t +:+ u.
Proof.
  induction s as [|c s IH]; [reflexivity|].
  change (String c (s +:+ t +:+ u)) with (String c s +:+ t +:+ u) in *.
  change ((String c s +:+ t) +:+ u) with (String c ((s +:+ t) +:+ u)).
  change (String c s +:+ t +:+ u) with (String c (s +:+ t +:+ u)).
  now rewrite IH.
Qed.

Lemma app_empty_r (s : string) : s +:+ EmptyString = s.
Proof.
  induction s as [|c s IH]; [reflexivity|].
  change (String c s +:+ EmptyString) with (String c (s +:+ EmptyString)).
  now rewrite IH.
Qed.

Lemma prefix_app (s t : string) : String.prefix s (s +:+ t) = true.
Proof.
  induction s as [|c s IH]; [now destruct t|].
  change (String c s +:+ t) with (String c (s +:+ t)).
  simpl. destruct (ascii_dec c c); [exact IH|congruence].
Qed.

Lemma length_take (n : nat) (s : string) :
  String.length (String.substring 0 n s) = Nat.min n (String.length s).
Proof.
  revert s; induction n as [|n IH]; intros [|c s]; simpl; auto.
Qed.

Lemma substring_all (s : string) :
  String.substring 0 (String.length s) s = s.
Proof. induction s as [|c s IH]; simpl; [reflexivity|now rewrite IH]. Qed.

Lemma take_drop (n : nat) (s : string) :
  s = String.substring 0 n s +:+ String.substring n (String.length s - n) s.
Proof.
  revert s; induction n as [|n IH]; intros s.
  - rewrite Nat.sub_0_r, substring_all. now destruct s.
  - destruct s as [|c s]; [reflexivity|].
    change (String c s = String c (String.substring 0 n s
              +:+ String.substring n (String.length s - n) s)).
    f_equal. apply IH.
Qed.

(** [s.substring(0, k)] keeps the first [k] code units, with [k] clamped
    to [0, s.length]. *)
Lemma substring_from_0 (s : string) (k : Z) :
  JS.substring s 0 k
  = String.substring 0 (Z.to_nat (Z.min (Z.max k 0) (JS.length s))) s.
Proof.
  unfold JS.substring. cbv zeta.
  assert (H0 : 0 <= JS.length s) by (unfold JS.length; lia).
  f_equal; lia.
Qed.

Lemma substring_prefix_length (s : string) (k : Z) :
  0 <= k <= JS.length s ->
  JS.length (JS.substring s 0 k) = k.
Proof.
  intros Hk. rewrite substring_from_0. unfold JS.length in *.
  rewrite length_take. lia.
Qed.

Lemma substring_nonpos (s : string) (k : Z) :
  k <= 0 -> JS.substring s 0 k = EmptyString.
Proof.
  intros Hk. rewrite substring_from_0.
  assert (H0 : 0 <= JS.length s) by (unfold JS.length; lia).
  replace (Z.to_nat _) with 0%nat by lia. now destruct s.
Qed.

Lemma substring_is_prefix (s : string) (k : Z) :
  exists rest, s = JS.substring s 0 k +:+ rest.
Proof. rewrite substring_from_0. eexists. apply take_drop. Qed.

(** *** Number of decimal digits *)

Lemma pretty_N_go_length (x : N) (s : string) (k : nat) :
  (x < 10 ^ N.of_nat k)%N ->
  (String.length (pretty_N_go x s) <= k + String.length s)%nat.
Proof.
  revert s k. induction (N.lt_wf_0 x) as [x _ IH]; intros s k Hx.
  destruct (N.eq_dec x 0%N) as [->|Hne].
  - rewrite pretty_N_go_0. lia.
  - rewrite pretty_N_go_step by lia.
    destruct k as [|k]; [simpl in Hx; lia|].
    assert (Hdiv : (x `div` 10 < 10 ^ N.of_nat k)%N).
    { apply N.Div0.div_lt_upper_bound.
      rewrite <- N.pow_succ_r'. now rewrite <- Nat2N.inj_succ. }
    specialize (IH (x `div` 10)%N ltac:(apply N.div_lt; lia)
                   (String (pretty_N_char (x `mod` 10)) s) k Hdiv).
    simpl in IH. lia.
Qed.

Lemma number_toString_safe (n : Z) :
  JS.safe_integer n -> JS.number_toString n = pretty n.
Proof.
  unfold JS.safe_integer, JS.number_toString, JS.magnitude_toString.
  intros Hn. destruct n as [|p|p]; cbn [Z.ltb Z.compare].
  - reflexivity.
  - now destruct (Z.leb_spec (Z.pos p) JS.MAX_SAFE_INTEGER); [|lia].
  - change (- Z.neg p) with (Z.pos p).
    now destruct (Z.leb_spec (Z.pos p) JS.MAX_SAFE_INTEGER); [|lia].
Qed.

Lemma number_toString_length (n : Z) (k : nat) :
  0 <= n < 10 ^ Z.of_nat k -> n <= JS.MAX_SAFE_INTEGER -> (1 <= k)%nat ->
  (String.length (JS.number_toString n) <= k)%nat.
Proof.
  intros [Hn Hlt] Hsafe Hk.
  rewrite number_toString_safe by (unfold JS.safe_integer; lia).
  unfold pretty, pretty_Z.
  destruct n as [|p|p]; [simpl; lia| |lia].
  unfold pretty, pretty_positive, pretty, pretty_N.
  destruct (decide (N.pos p = 0%N)) as [|_]; [discriminate|].
  pose proof (pretty_N_go_length (N.pos p) EmptyString k) as H.
  simpl in H. rewrite Nat.add_0_r in H. apply H.
  apply N2Z.inj_lt. rewrite N2Z.inj_pow, nat_N_Z. exact Hlt.
Qed.

Lemma truncation_notice_length (total : Z) :
  JS.length (truncation_notice total)
  = 58 + JS.length (JS.number_toString total).
Proof.
  unfold truncation_notice. rewrite !JS_length_app.
  unfold JS.length at 1 2 3 5. simpl. lia.
Qed.

(** Every string value has a length of at most sixteen digits. *)
Lemma string_value_digits (s : string) :
  JS.string_value s ->
  JS.length (JS.number_toString (JS.length s)) <= 16.
Proof.
  unfold JS.string_value, JS.MAX_STRING_LENGTH. intros Hs.
  pose proof (number_toString_length (JS.length s) 16) as H.
  unfold JS.MAX_SAFE_INTEGER, JS.length in *. lia.
Qed.

(** With a limit of 100 or more, the output of the length guard stays
    within the limit. *)
Lemma truncateIfNeeded_within_limit (content : string) (limit : Z) :
  100 <= limit -> JS.string_value content ->
  JS.length (truncateIfNeeded content limit) <= limit.
Proof.
  intros Hlimit Hcontent. unfold truncateIfNeeded.
  destruct (Z.leb_spec (JS.length content) limit) as [Hle|Hgt]; [exact Hle|].
  cbv zeta. rewrite JS_length_app, truncation_notice_length.
  rewrite substring_prefix_length by lia.
  pose proof (string_value_digits content Hcontent). lia.
Qed.

(** ** The length guard *)

(** C1, as the specification states it, fails: with a ceiling below 100
    nothing of the text is kept and the notice alone is longer than the
    ceiling.  Here a text of 11 characters and a ceiling of 10 give a
    result of 60 characters. *)
Lemma truncateIfNeeded_exceeds_small_ceiling :
  let text := JS.repeat "a" 11 in
  let ceiling := 10 in
  JS.length text > ceiling
  /\ truncateIfNeeded text ceiling = truncation_notice 11
  /\ JS.length (truncateIfNeeded text ceiling) = 60
  /\ ~ JS.length (truncateIfNeeded text ceiling) <= ceiling.
Proof. cbv zeta. repeat split; vm_compute; congruence. Qed.

(** C1, amended: [truncateIfNeeded text ceiling] is [text] when
    [text.length <= ceiling]; otherwise it is the prefix
    [text.substring(0, ceiling - 100)] followed by the notice that prints
    the original length in decimal; when moreover [ceiling >= 100] that
    prefix has exactly [ceiling - 100] characters and the result is at most
    [ceiling] characters long. *)
Theorem truncateIfNeeded_spec (text : string) (ceiling : Z) :
  (JS.length text <= ceiling -> truncateIfNeeded text ceiling = text)
  /\ (ceiling < JS.length text ->
      truncateIfNeeded text ceiling
      = JS.substring text 0 (ceiling - 100)
          +:+ (JS.LF +:+ JS.LF +:+ "...[Content truncated due to length. Total: "
                 +:+ JS.number_toString (JS.length text) +:+ " characters]")
      /\ (exists rest, text = JS.substring text 0 (ceiling - 100) +:+ rest)
      /\ (100 <= ceiling ->
          JS.length (JS.substring text 0 (ceiling - 100)) = ceiling - 100)
      /\ (100 <= ceiling -> JS.string_value text ->
          JS.length (truncateIfNeeded text ceiling) <= ceiling)).
Proof.
  split.
  - intros Hle. unfold truncateIfNeeded.
    now destruct (Z.leb_spec (JS.length text) ceiling); [|lia].
  - intros Hgt. repeat split.
    + unfold truncateIfNeeded.
      now destruct (Z.leb_spec (JS.length text) ceiling); [lia|].
    + apply substring_is_prefix.
    + intros Hc. apply substring_prefix_length. lia.
    + apply truncateIfNeeded_within_limit.
Qed.

(** The scenario of the specification: a thousand characters under a
    ceiling of 500. *)
Lemma truncateIfNeeded_spec_witness :
  500 < JS.length (JS.repeat "a" 1000)
  /\ 100 <= 500
  /\ JS.string_value (JS.repeat "a" 1000)
  /\ JS.length (truncateIfNeeded (JS.repeat "a" 1000) 500) <= 500.
Proof.
  split; [vm_compute; reflexivity|].
  split; [lia|].
  split; [vm_compute; discriminate|].
  apply (truncateIfNeeded_spec (JS.repeat "a" 1000) 500);
    [vm_compute; reflexivity | lia | vm_compute; discriminate].
Defined.

(** C10: for a limit of 100 or more the output of one application never
    exceeds the limit, so a second application returns it unchanged. *)
Theorem truncateIfNeeded_idempotent (text : string) (limit : Z) :
  JS.string_value text -> 100 <= limit ->
  JS.length (truncateIfNeeded text limit) <= limit
  /\ truncateIfNeeded (truncateIfNeeded text limit) limit
     = truncateIfNeeded text limit.
Proof.
  intros Htext Hlimit.
  pose proof (truncateIfNeeded_within_limit text limit Hlimit Htext) as Hle.
  split; [exact Hle|].
  unfold truncateIfNeeded at 1.
  now destruct (Z.leb_spec (JS.length (truncateIfNeeded text limit)) limit); [|lia].
Qed.

Lemma truncateIfNeeded_idempotent_witness :
  let text := JS.repeat "a" 1000 in
  JS.length (truncateIfNeeded text 500) <= 500
  /\ truncateIfNeeded (truncateIfNeeded text 500) 500 = truncateIfNeeded text 500.
Proof.
  cbv zeta. apply truncateIfNeeded_idempotent.
  - vm_compute; discriminate.
  - lia.
Defined.

(** ** The formatters *)

Lemma signed_change_positive (change : Z) :
  0 < change -> signed_change change = "+" +:+ JS.number_toString change.
Proof. intros Hc. unfold signed_change. now destruct change. Qed.

Lemma signed_change_zero : signed_change 0 = "0".
Proof. reflexivity. Qed.

Lemma signed_change_negative (change : Z) :
  change < 0 -> signed_change change = "-" +:+ JS.number_toString (- change).
Proof. intros Hc. unfold signed_change. now destruct change. Qed.

(** C3, as the specification states it, fails: a change of zero is
    non-negative and is rendered [0], with no sign. *)
Lemma zero_change_has_no_plus :
  0 <= Historical.change
         (Counter.historical (PhotoStatistics.downloads Sample.flat_stats))
  /\ formatStatisticsMarkdown (locale := EnUS.locale) Sample.flat_stats
     = JS.join JS.LF
         [ "### Photo Statistics (ID: photo-123)";
           "**Total Downloads**: 5,000";
           "**Total Views**: 50,000";
           "**Total Likes**: 500";
           JS.LF +:+ "**Recent Trends**:";
           "- Downloads change: 0";
           "- Views change: -100";
           "- Likes change: +10" ]
  /\ signed_change 0 <> "+0".
Proof. repeat split; vm_compute; congruence. Qed.

(** C3, amended: for every statistics record [formatStatisticsMarkdown]
    returns eight lines joined by line feeds, of which the last three are
    the trends, each ending with the change rendered by [signed_change]: a
    leading [+] before the number when the change is positive, [0] alone
    when it is zero, and [-] before the number of its absolute value when
    it is negative; 250 gives [+250] and -100 gives [-100]. *)
Theorem formatStatisticsMarkdown_signed_changes {locale : Locale}
    (stats : PhotoStatistics.t) :
  formatStatisticsMarkdown stats
  = JS.join JS.LF
      [ "### Photo Statistics (ID: " +:+ PhotoStatistics.id stats +:+ ")";
        "**Total Downloads**: "
          +:+ toLocaleString (Counter.total (PhotoStatistics.downloads stats));
        "**Total Views**: "
          +:+ toLocaleString (Counter.total (PhotoStatistics.views stats));
        "**Total Likes**: "
          +:+ toLocaleString (Counter.total (PhotoStatistics.likes stats));
        JS.LF +:+ "**Recent Trends**:";
        "- Downloads change: "
          +:+ signed_change
                (Historical.change
                   (Counter.historical (PhotoStatistics.downloads stats)));
        "- Views change: "
          +:+ signed_change
                (Historical.change
                   (Counter.historical (PhotoStatistics.views stats)));
        "- Likes change: "
          +:+ signed_change
                (Historical.change
                   (Counter.historical (PhotoStatistics.likes stats))) ]
  /\ (forall change,
        (0 < change ->
         signed_change change = "+" +:+ JS.number_toString change)
        /\ (change = 0 -> signed_change change = "0")
        /\ (change < 0 ->
            signed_change change = "-" +:+ JS.number_toString (- change)))
  /\ signed_change 250 = "+250"
  /\ signed_change (-100) = "-100".
Proof.
  split; [reflexivity|]. split; [|split; reflexivity].
  intros change. split; [apply signed_change_positive|].
  split; [intros ->; apply signed_change_zero|apply signed_change_negative].
Qed.

Lemma formatStatisticsMarkdown_signed_changes_witness :
  0 < 250 /\ signed_change 250 = "+" +:+ JS.number_toString 250.
Proof.
  split; [lia|].
  destruct (formatStatisticsMarkdown_signed_changes (locale := EnUS.locale) Sample.stats)
    as (_ & Hcases & _).
  destruct (Hcases 250) as [Hpositive _].
  apply Hpositive. lia.
Defined.

(** The lines of a photo, spelled out. *)
Lemma formatPhotoMarkdown_parts_eq {locale : Locale} (photo : Photo.t) :
  formatPhotoMarkdown_parts photo
  = JS.Return
      ([ "### " +:+ JS.interpolate
           (JS.or (JS.or (Photo.alt_description photo) (Photo.description photo))
                  (Some "Photo"));
         "**ID**: " +:+ Photo.id photo;
         "**Photographer**: " +:+ User.name (Photo.user photo)
           +:+ " (@" +:+ User.username (Photo.user photo) +:+ ")";
         "**Dimensions**: " +:+ JS.number_toString (Photo.width photo)
           +:+ " " +:+ JS.TIMES +:+ " " +:+ JS.number_toString (Photo.height photo)
           +:+ "px";
         "**Color**: " +:+ Photo.color photo;
         "**Likes**: " +:+ JS.number_toString (Photo.likes photo) ]
       ++ (if JS.truthy (Photo.description photo)
           then ["**Description**: " +:+ JS.interpolate (Photo.description photo)]
           else [])
       ++ (if JS.truthy (JS.optional_member (Photo.location photo) Location.name)
           then ["**Location**: "
                   +:+ JS.interpolate
                         (JS.optional_member (Photo.location photo) Location.name)]
           else [])
       ++ [ "**Created**: " +:+ toLocaleDateString (Photo.created_at photo);
            "**Unsplash URL**: " +:+ PhotoLinks.html (Photo.links photo);
            "**Download URL**: " +:+ PhotoUrls.regular (Photo.urls photo) ]
       ++ match Photo.tags photo with
          | Some (tag :: tags) =>
              ["**Tags**: " +:+ JS.join ", " (List.map Tag.title (tag :: tags))]
          | _ => []
          end).
Proof.
  destruct photo as [id created w h color desc alt likes urls links user loc tags].
  unfold formatPhotoMarkdown_parts; cbn [Photo.id Photo.created_at Photo.width
    Photo.height Photo.color Photo.description Photo.alt_description Photo.likes
    Photo.urls Photo.links Photo.user Photo.location Photo.tags].
  destruct desc as [[|? ?]|]; destruct loc as [[[[|? ?]|]]|];
    destruct tags as [[|? ?]|]; reflexivity.
Qed.

Ltac no_line_tac :=
  unfold no_line; repeat (constructor; [reflexivity|]); constructor.

Section FormattersOmit.
Context {locale : Locale}.

Lemma photo_without_description (photo : Photo.t) (parts : list string) :
  formatPhotoMarkdown_parts photo = JS.Return parts ->
  Photo.description photo = None -> no_line "**Description**: " parts.
Proof.
  rewrite formatPhotoMarkdown_parts_eq. intros [= <-] Hd.
  rewrite Hd.
  destruct (Photo.location photo) as [[[[|? ?]|]]|];
    destruct (Photo.tags photo) as [[|? ?]|]; no_line_tac.
Qed.

Lemma photo_without_location (photo : Photo.t) (parts : list string) :
  formatPhotoMarkdown_parts photo = JS.Return parts ->
  Photo.location photo = None -> no_line "**Location**: " parts.
Proof.
  rewrite formatPhotoMarkdown_parts_eq. intros [= <-] Hl.
  rewrite Hl.
  destruct (Photo.description photo) as [[|? ?]|];
    destruct (Photo.tags photo) as [[|? ?]|]; no_line_tac.
Qed.

Lemma photo_without_tags (photo : Photo.t) (parts : list string) :
  formatPhotoMarkdown_parts photo = JS.Return parts ->
  Photo.tags photo = None -> no_line "**Tags**: " parts.
Proof.
  rewrite formatPhotoMarkdown_parts_eq. intros [= <-] Ht.
  rewrite Ht.
  destruct (Photo.description photo) as [[|? ?]|];
    destruct (Photo.location photo) as [[[[|? ?]|]]|]; no_line_tac.
Qed.

Lemma collection_without_description (collection : Collection.t) :
  Collection.description collection = None ->
  no_line "**Description**: " (formatCollectionMarkdown_parts collection).
Proof.
  intros Hd. unfold formatCollectionMarkdown_parts. rewrite Hd. no_line_tac.
Qed.

Lemma user_without_bio (user : User.t) :
  User.bio user = None -> no_line "**Bio**: " (formatUserMarkdown_parts user).
Proof.
  intros Hb. unfold formatUserMarkdown_parts. rewrite Hb.
  destruct (User.location user) as [[|? ?]|];
    destruct (User.instagram_username user) as [[|? ?]|];
    destruct (User.portfolio_url user) as [[|? ?]|]; no_line_tac.
Qed.

Lemma user_without_location (user : User.t) :
  User.location user = None ->
  no_line "**Location**: " (formatUserMarkdown_parts user).
Proof.
  intros Hb. unfold formatUserMarkdown_parts. rewrite Hb.
  destruct (User.bio user) as [[|? ?]|];
    destruct (User.instagram_username user) as [[|? ?]|];
    destruct (User.portfolio_url user) as [[|? ?]|]; no_line_tac.
Qed.

Lemma user_without_instagram (user : User.t) :
  User.instagram_username user = None ->
  no_line "**Instagram**: " (formatUserMarkdown_parts user).
Proof.
  intros Hb. unfold formatUserMarkdown_parts. rewrite Hb.
  destruct (User.bio user) as [[|? ?]|];
    destruct (User.location user) as [[|? ?]|];
    destruct (User.portfolio_url user) as [[|? ?]|]; no_line_tac.
Qed.

Lemma user_without_portfolio (user : User.t) :
  User.portfolio_url user = None ->
  no_line "**Portfolio**: " (formatUserMarkdown_parts user).
Proof.
  intros Hb. unfold formatUserMarkdown_parts. rewrite Hb.
  destruct (User.bio user) as [[|? ?]|];
    destruct (User.location user) as [[|? ?]|];
    destruct (User.instagram_username user) as [[|? ?]|]; no_line_tac.
Qed.

End FormattersOmit.

(** C7, as the specification states it, fails for [alt_description]: the
    photo with no caption and no description is given the placeholder
    heading [### Photo], and the list variant the label [Photo]. *)
Lemma absent_caption_gets_placeholder :
  Photo.alt_description Sample.bare_photo = None
  /\ Photo.description Sample.bare_photo = None
  /\ formatPhotoMarkdown (locale := EnUS.locale) Sample.bare_photo
     = JS.Return
         (JS.join JS.LF
            [ "### Photo";
              "**ID**: test-123";
              "**Photographer**: Test Curator (@curator)";
              "**Dimensions**: 1920 " +:+ JS.TIMES +:+ " 1080px";
              "**Color**: #000000";
              "**Likes**: 42";
              "**Created**: 1/1/2024";
              "**Unsplash URL**: https://unsplash.com/photos/test-123";
              "**Download URL**: https://example.com/regular" ])
  /\ String.prefix "1. **Photo** (ID: test-123)"
       (formatPhotosListMarkdown [Sample.bare_photo]) = true.
Proof. repeat split; vm_compute; reflexivity. Qed.

(** The entry of a photo without caption, at any place of a list. *)
Lemma formatPhotosListMarkdown_placeholder (photos : list Photo.t)
    (index : nat) (photo : Photo.t) :
  photos !! index = Some photo -> Photo.alt_description photo = None ->
  exists entries entry,
    formatPhotosListMarkdown photos = JS.join (JS.LF +:+ JS.LF) entries
    /\ List.length entries = List.length photos
    /\ entries !! index = Some entry
    /\ String.prefix
         (JS.number_toString (Z.of_nat index + 1) +:+ ". **Photo** (ID: "
            +:+ Photo.id photo +:+ ")")
         entry = true.
Proof.
  intros Hphoto Halt. unfold formatPhotosListMarkdown. cbv zeta.
  eexists _, _. split; [reflexivity|].
  split; [apply length_imap|].
  split; [rewrite list_lookup_imap, Hphoto; reflexivity|].
  cbv beta. rewrite Halt. cbn [JS.or JS.truthy JS.interpolate].
  match goal with
  | |- String.prefix (?number +:+ ?label +:+ ?id +:+ ?close)
         (?number +:+ _ +:+ _ +:+ _ +:+ ?id +:+ _ +:+ ?rest) = true =>
      change (String.prefix (number +:+ label +:+ id +:+ close)
                (number +:+ label +:+ id +:+ close +:+ rest) = true);
      replace (number +:+ label +:+ id +:+ close +:+ rest)
        with ((number +:+ label +:+ id +:+ close) +:+ rest)
        by (now rewrite !app_assoc)
  end.
  apply prefix_app.
Qed.

(** C7, amended: no formatter throws on a record whose optional
    attributes are absent, and each returns the lines it has collected,
    joined by line feeds.  When [description], [location], [tags], [bio],
    [instagram_username] or [portfolio_url] is absent, none of these lines
    carries its label.  [alt_description] has no line of its own: when it
    is absent the heading of a photo falls back to the description, and to
    the placeholder [Photo] when that is absent or empty too; in a list of
    photos the entry of such a photo, wherever it stands, is labelled
    [Photo].  [formatPhotoMarkdown] is the one formatter that reads
    properties of optional objects ([location], [tags]); its guards keep
    every such read from throwing. *)
Theorem formatters_omit_absent_lines {locale : Locale} :
  (forall photo : Photo.t,
      exists parts,
        formatPhotoMarkdown_parts photo = JS.Return parts
        /\ formatPhotoMarkdown photo = JS.Return (JS.join JS.LF parts)
        /\ (Photo.description photo = None -> no_line "**Description**: " parts)
        /\ (Photo.location photo = None -> no_line "**Location**: " parts)
        /\ (Photo.tags photo = None -> no_line "**Tags**: " parts)
        /\ (Photo.alt_description photo = None ->
            List.head parts
            = Some ("### " +:+ JS.interpolate
                                 (JS.or (Photo.description photo) (Some "Photo")))))
  /\ (forall (photos : list Photo.t) (index : nat) (photo : Photo.t),
        photos !! index = Some photo ->
        Photo.alt_description photo = None ->
        exists entries entry,
          formatPhotosListMarkdown photos = JS.join (JS.LF +:+ JS.LF) entries
          /\ List.length entries = List.length photos
          /\ entries !! index = Some entry
          /\ String.prefix
               (JS.number_toString (Z.of_nat index + 1) +:+ ". **Photo** (ID: "
                  +:+ Photo.id photo +:+ ")")
               entry = true)
  /\ (forall collection : Collection.t,
        formatCollectionMarkdown collection
        = JS.join JS.LF (formatCollectionMarkdown_parts collection)
        /\ (Collection.description collection = None ->
            no_line "**Description**: " (formatCollectionMarkdown_parts collection)))
  /\ (forall user : User.t,
        formatUserMarkdown user = JS.join JS.LF (formatUserMarkdown_parts user)
        /\ (User.bio user = None ->
            no_line "**Bio**: " (formatUserMarkdown_parts user))
        /\ (User.location user = None ->
            no_line "**Location**: " (formatUserMarkdown_parts user))
        /\ (User.instagram_username user = None ->
            no_line "**Instagram**: " (formatUserMarkdown_parts user))
        /\ (User.portfolio_url user = None ->
            no_line "**Portfolio**: " (formatUserMarkdown_parts user))).
Proof.
  split; [|split; [|split]].
  - intros photo.
    pose proof (formatPhotoMarkdown_parts_eq photo) as Hparts.
    eexists. split; [exact Hparts|].
    split; [unfold formatPhotoMarkdown; rewrite Hparts; reflexivity|].
    split; [now apply photo_without_description|].
    split; [now apply photo_without_location|].
    split; [now apply photo_without_tags|].
    intros Halt. rewrite Halt. reflexivity.
  - apply formatPhotosListMarkdown_placeholder.
  - intros collection. split; [reflexivity|].
    apply collection_without_description.
  - intros user. split; [reflexivity|]. split; [apply user_without_bio|].
    split; [apply user_without_location|].
    split; [apply user_without_instagram|apply user_without_portfolio].
Qed.

Lemma formatters_omit_absent_lines_witness :
  Photo.description Sample.bare_photo = None
  /\ Photo.location Sample.bare_photo = None
  /\ Photo.tags Sample.bare_photo = None
  /\ Collection.description Sample.collection = None
  /\ (exists parts,
        formatPhotoMarkdown (locale := EnUS.locale) Sample.bare_photo
        = JS.Return (JS.join JS.LF parts)
        /\ no_line "**Description**: " parts
        /\ no_line "**Location**: " parts
        /\ no_line "**Tags**: " parts)
  /\ no_line "**Description**: "
       (formatCollectionMarkdown_parts (locale := EnUS.locale) Sample.collection).
Proof.
  split; [reflexivity|]. split; [reflexivity|]. split; [reflexivity|].
  split; [reflexivity|].
  destruct (formatters_omit_absent_lines (locale := EnUS.locale))
    as (Hphoto & _ & Hcollection & _).
  split.
  - destruct (Hphoto Sample.bare_photo) as (parts & _ & Hjoined & Hd & Hl & Ht & _).
    exists parts. split; [exact Hjoined|].
    split; [apply Hd; reflexivity|].
    split; [apply Hl; reflexivity|apply Ht; reflexivity].
  - destruct (Hcollection Sample.collection) as [_ Hd]. apply Hd. reflexivity.
Defined.

(** ** The address of a request *)

Lemma queryParams_of_fold (entries : Params) (acc : URLSearchParams.t) :
  List.fold_left
    (fun queryParams entry =>
       match snd entry with
       | Some value =>
           URLSearchParams.append queryParams (fst entry) (String_of value)
       | None => queryParams
       end)
    entries acc
  = acc ++ present entries.
Proof.
  revert acc. induction entries as [|[key [value|]] entries IH]; intros acc.
  - simpl. now rewrite List.app_nil_r.
  - simpl. rewrite IH. unfold URLSearchParams.append.
    now rewrite <- List.app_assoc.
  - simpl. apply IH.
Qed.

Lemma queryParams_of_present (params : option Params) :
  queryParams_of params = present (default [] params).
Proof.
  destruct params as [entries|]; [|reflexivity].
  unfold queryParams_of. now rewrite queryParams_of_fold.
Qed.

Lemma present_skips_absent (before after : Params) (key : string) :
  present (before ++ (key, None) :: after) = present (before ++ after).
Proof. unfold present. now rewrite !List.flat_map_app. Qed.

Lemma unreserved_not_space (c : ascii) :
  URLSearchParams.unreserved c = true -> Ascii.eqb c " "%char = false.
Proof. destruct c as [[] [] [] [] [] [] [] []]; vm_compute; congruence. Qed.

Lemma serialize_unreserved (s : string) :
  all_unreserved s = true -> URLSearchParams.serialize_string s = s.
Proof.
  induction s as [|c s IH]; [reflexivity|].
  simpl. intros [Hc Hs]%andb_prop.
  unfold URLSearchParams.serialize_code_unit.
  rewrite (unreserved_not_space c Hc), Hc, (IH Hs). reflexivity.
Qed.

Lemma pretty_N_char_unreserved (x : N) :
  URLSearchParams.unreserved (pretty_N_char x) = true.
Proof. unfold pretty_N_char. repeat case_match; reflexivity. Qed.

Lemma pretty_N_go_unreserved (x : N) (s : string) :
  all_unreserved s = true -> all_unreserved (pretty_N_go x s) = true.
Proof.
  revert s. induction (N.lt_wf_0 x) as [x _ IH]; intros s Hs.
  destruct (N.eq_dec x 0%N) as [->|Hne].
  - now rewrite pretty_N_go_0.
  - rewrite pretty_N_go_step by lia. apply IH; [apply N.div_lt; lia|].
    simpl. now rewrite pretty_N_char_unreserved.
Qed.

Lemma pretty_positive_unreserved (p : positive) :
  all_unreserved (pretty p) = true.
Proof.
  unfold pretty, pretty_positive, pretty, pretty_N.
  destruct (decide (N.pos p = 0%N)); [discriminate|].
  now apply pretty_N_go_unreserved.
Qed.

Lemma number_toString_unreserved (n : Z) :
  JS.safe_integer n -> all_unreserved (JS.number_toString n) = true.
Proof.
  intros Hsafe. rewrite (number_toString_safe n Hsafe).
  unfold pretty, pretty_Z.
  destruct n as [|p|p]; [reflexivity|apply pretty_positive_unreserved|].
  change ("-" +:+ pretty p) with (String "-"%char (pretty p)).
  simpl. apply pretty_positive_unreserved.
Qed.

Lemma toString_nil_iff (queryParams : URLSearchParams.t) :
  URLSearchParams.toString queryParams = EmptyString <-> queryParams = [].
Proof.
  split; [|now intros ->].
  destruct queryParams as [|[name value] rest]; [reflexivity|].
  intros Hempty. apply (f_equal String.length) in Hempty.
  unfold URLSearchParams.toString, JS.join in Hempty. simpl in Hempty.
  destruct (List.map _ rest); rewrite !length_app in Hempty; simpl in Hempty; lia.
Qed.

Lemma toString_unreserved (queryParams : URLSearchParams.t) :
  Forall (fun p => all_unreserved (fst p) = true /\ all_unreserved (snd p) = true)
         queryParams ->
  URLSearchParams.toString queryParams
  = JS.join "&" (List.map (fun p => fst p +:+ "=" +:+ snd p) queryParams).
Proof.
  intros Hall. unfold URLSearchParams.toString. f_equal.
  induction Hall as [|[name value] rest [Hname Hvalue] _ IH]; [reflexivity|].
  simpl in *. now rewrite IH, !serialize_unreserved.
Qed.

(** C4, as the specification states it, fails: the value [cute cats] does
    not appear as [query=cute cats], its space is sent as [+]. *)
Lemma space_in_value_is_encoded :
  let params := Some [("query", Some (SString "cute cats"))] in
  url_of "/search/photos" params
  = "https://api.unsplash.com/search/photos?query=cute+cats"
  /\ query_string_as_specified params = "query=cute cats"
  /\ String.index 0 "query=cute cats" (url_of "/search/photos" params) = None
  /\ url_of "/search/photos" params
     <> UNSPLASH_API_URL +:+ "/search/photos" +:+ "?"
          +:+ query_string_as_specified params.
Proof. cbv zeta. repeat split; vm_compute; congruence. Qed.

(** C4, amended: the query parameters are the entries that have a value,
    in the order of the entries, each with its value stringified; an entry
    whose value is [undefined] contributes nothing.  The query string
    joins with [&] the pairs [name=value] after both sides went through
    the form-urlencoded serializer, which leaves ASCII letters, digits and
    [*-._] as they are, writes a space as [+] and percent-encodes the
    rest.  A boolean, and an integer of at most [2^53 - 1] in magnitude,
    which is printed with its decimal digits, are therefore sent as they
    are; a number that is printed in exponent notation is not: [10^21] is
    printed [1e+21] and sent as [1e%2B21].  The address is the base
    address, the endpoint and, only when there is a present entry, [?] and
    the query string. *)
Theorem url_of_spec (client : UnsplashClient) (endpoint : string)
    (params : option Params) :
  let entries := default [] params in
  let query := URLSearchParams.toString (queryParams_of params) in
  queryParams_of params = present entries
  /\ (forall before after key,
        present (before ++ (key, None) :: after) = present (before ++ after))
  /\ query
     = JS.join "&"
         (List.map
            (fun p => URLSearchParams.serialize_string (fst p) +:+ "="
                        +:+ URLSearchParams.serialize_string (snd p))
            (present entries))
  /\ (query = EmptyString <-> present entries = [])
  /\ url (request_of client endpoint params)
     = UNSPLASH_API_URL +:+ endpoint
         +:+ (if String.eqb query EmptyString then EmptyString else "?" +:+ query)
  /\ (forall n,
        JS.safe_integer n ->
        String_of (SNumber n) = pretty n
        /\ all_unreserved (String_of (SNumber n)) = true)
  /\ (String_of (SNumber (10 ^ 21)) = "1e+21"
      /\ URLSearchParams.serialize_string (String_of (SNumber (10 ^ 21)))
         = "1e%2B21")
  /\ (forall b, all_unreserved (String_of (SBoolean b)) = true)
  /\ (forall s, all_unreserved s = true -> URLSearchParams.serialize_string s = s)
  /\ (Forall (fun p => all_unreserved (fst p) = true
                       /\ all_unreserved (snd p) = true) (present entries) ->
      query = query_string_as_specified params).
Proof.
  cbv zeta. rewrite queryParams_of_present.
  split; [reflexivity|].
  split; [apply present_skips_absent|].
  split; [reflexivity|].
  split; [apply toString_nil_iff|].
  split.
  { unfold request_of, url_of; cbn [url]. rewrite queryParams_of_present.
    now destruct (URLSearchParams.toString _). }
  split.
  { intros n Hsafe. split; [now apply number_toString_safe|].
    now apply number_toString_unreserved. }
  split; [split; vm_compute; reflexivity|].
  split; [now intros []|].
  split; [apply serialize_unreserved|].
  apply toString_unreserved.
Qed.

(** The parameters of [unsplash-client.test.ts], with an absent page. *)
Lemma url_of_spec_witness :
  let params :=
    Some [ ("query", Some (SString "nature")); ("page", None);
           ("per_page", Some (SNumber 10)) ] in
  URLSearchParams.toString (queryParams_of params) = "query=nature&per_page=10"
  /\ URLSearchParams.toString (queryParams_of params)
     = query_string_as_specified params
  /\ JS.safe_integer 10
  /\ all_unreserved (String_of (SNumber 10)) = true.
Proof.
  cbv zeta. split; [reflexivity|].
  destruct (url_of_spec Sample.client "/search/photos"
              (Some [ ("query", Some (SString "nature")); ("page", None);
                      ("per_page", Some (SNumber 10)) ]))
    as (_ & _ & _ & _ & _ & Hnumber & _ & _ & _ & Hliteral).
  split.
  { apply Hliteral.
    constructor; [split; reflexivity|].
    constructor; [split; reflexivity|].
    constructor. }
  assert (Hsafe : JS.safe_integer 10) by (vm_compute; discriminate).
  split; [exact Hsafe|].
  destruct (Hnumber 10 Hsafe) as [_ Hunreserved]. exact Hunreserved.
Defined.

(** ** The request executor *)

Section Executor.
Context {host : Host}.
Variables (client : UnsplashClient) (endpoint : string) (params : option Params).

Lemma makeRequest_rejected (reason : Thrown) :
  fetch (request_of client endpoint params) = Rejected reason ->
  makeRequest client endpoint params
  = match reason with
    | ThrownAPIError error => JS.Throw (ThrownAPIError error)
    | ThrownError error => network_error error
    | ThrownValue _ =>
        JS.Throw (ThrownAPIError {| message := "Unknown error occurred";
                                    statusCode := None;
                                    response := None |})
    end.
Proof. intros Hfetch. unfold makeRequest. rewrite Hfetch. reflexivity. Qed.

Lemma makeRequest_failed_response (r : Response) :
  fetch (request_of client endpoint params) = Fulfilled r -> ok r = false ->
  makeRequest client endpoint params
  = match Value.ToString (errorMessage_of r) with
    | JS.Return msg => failure r msg
    | JS.Throw e => network_error e
    end.
Proof.
  intros Hfetch Hok. unfold makeRequest, new_UnsplashAPIError.
  rewrite Hfetch, Hok. cbn [negb].
  now destruct (Value.ToString (errorMessage_of r)).
Qed.


Lemma makeRequest_successful_response (r : Response) :
  fetch (request_of client endpoint params) = Fulfilled r -> ok r = true ->
  makeRequest client endpoint params
  = match JSON_parse (body r) with
    | JS.Return value => JS.Return value
    | JS.Throw e => network_error e
    end.
Proof.
  intros Hfetch Hok. unfold makeRequest. rewrite Hfetch, Hok. cbn [negb].
  now destruct (JSON_parse (body r)).
Qed.

(** The message of a failed response, by the shape of its body. *)




End Executor.




(** C5: when [fetch] rejects with an [Error], as it does for every
    failure of the transport, the error thrown carries no status code and
    its message is [Network error: ] followed by the message of the
    cause. *)
Theorem transport_failure_is_network_error {host : Host} (client : UnsplashClient)
    (endpoint : string) (params : option Params) (cause : JS.Error) :
  fetch (request_of client endpoint params) = Rejected (ThrownError cause) ->
  makeRequest client endpoint params
  = JS.Throw (ThrownAPIError
                {| message := "Network error: " +:+ JS.error_message cause;
                   statusCode := None;
                   response := Some (Cause cause) |}).
Proof. intros Hfetch. now rewrite (makeRequest_rejected _ _ _ _ Hfetch). Qed.

(** The mock of [unsplash-client.test.ts]: [throw new Error("Network failure")]. *)
Lemma transport_failure_is_network_error_witness :
  makeRequest
    (host := mock_host (Rejected (ThrownError (JS.MkError "Error" "Network failure"))))
    Sample.client "/search/photos" None
  = JS.Throw (ThrownAPIError
                {| message := "Network error: Network failure";
                   statusCode := None;
                   response := Some (Cause (JS.MkError "Error" "Network failure")) |}).
Proof.
  apply (transport_failure_is_network_error
           (host := mock_host (Rejected (ThrownError (JS.MkError "Error" "Network failure"))))
           Sample.client "/search/photos" None (JS.MkError "Error" "Network failure")).
  reflexivity.
Defined.

(** C6 holds on the code whenever the selected message converts to a
    string: the error then carries the status of the response and the text
    of its body, and status 401 with the body [{"errors":["Unauthorized"]}]
    gives the message [Unauthorized].  It fails at a body whose selected
    message cannot be converted: for status 500 and the body
    [{"errors":[{"toString":0}]}] the constructor of the error throws a
    [TypeError] inside the [try] block, and the outer handler reports it as
    a network error that carries no status code and not the body text. *)
Theorem failed_response_status_code :
  (forall (host : Host) client endpoint params r msg,
      fetch (request_of client endpoint params) = Fulfilled r ->
      ok r = false ->
      Value.ToString (errorMessage_of r) = JS.Return msg ->
      makeRequest client endpoint params
      = JS.Throw (ThrownAPIError {| message := msg;
                                    statusCode := Some (status r);
                                    response := Some (BodyText (body r)) |}))
  /\ (let r := {| status := 401; body := Sample.unauthorized_body |} in
      makeRequest (host := mock_host (Fulfilled r)) Sample.client "/search/photos" None
      = JS.Throw (ThrownAPIError
                    {| message := "Unauthorized";
                       statusCode := Some 401;
                       response := Some (BodyText Sample.unauthorized_body) |}))
  /\ (let r := {| status := 500; body := Sample.unconvertible_body |} in
      ok r = false
      /\ JSON_parse (Host := mock_host (Fulfilled r)) (body r)
         = JS.Return
             (JObject [("errors", JArray [JObject [("toString", JNumber 0)]])])
      /\ errorMessage_of (host := mock_host (Fulfilled r)) r
         = JObject [("toString", JNumber 0)]
      /\ makeRequest (host := mock_host (Fulfilled r)) Sample.client
           "/photos/random" None
         = JS.Throw (ThrownAPIError
                       {| message :=
                            "Network error: Cannot convert object to primitive value";
                          statusCode := None;
                          response :=
                            Some (Cause (JS.TypeError
                                           "Cannot convert object to primitive value")) |})).
Proof.
  split; [|split].
  - intros host client endpoint params r msg Hfetch Hok Hmsg.
    now rewrite (makeRequest_failed_response _ _ _ r Hfetch Hok), Hmsg.
  - reflexivity.
  - cbv zeta. repeat split; vm_compute; reflexivity.
Qed.

(** A failed response with the status 404 and an empty body. *)
Lemma failed_response_status_code_witness :
  let r := {| status := 404; body := EmptyString |} in
  makeRequest (host := mock_host (Fulfilled r)) Sample.client "/photos/missing" None
  = JS.Throw (ThrownAPIError {| message := "Unsplash API error (404)";
                                statusCode := Some 404;
                                response := Some (BodyText EmptyString) |}).
Proof.
  cbv zeta.
  destruct failed_response_status_code as (Hcarried & _).
  apply (Hcarried (mock_host (Fulfilled {| status := 404; body := EmptyString |}))
                  Sample.client "/photos/missing" None
                  {| status := 404; body := EmptyString |}
                  "Unsplash API error (404)");
    reflexivity.
Defined.

(** C8, as the specification states it, fails: a response with a failure
    status is not logged; the console is left as it was. *)
Lemma failed_status_is_not_logged :
  let r := {| status := 500; body := "Internal Server Error" |} in
  ok r = false
  /\ trackDownload (host := mock_host (Fulfilled r)) Sample.client
       "https://api.unsplash.com/photos/test/download" []
     = (JS.Return tt, []).
Proof. cbv zeta. split; reflexivity. Qed.

(** C8, amended: [trackDownload] returns normally for every address and
    every outcome of the call.  A rejection of [fetch] is written to the
    console and swallowed; a response, whatever its status, is ignored and
    nothing is written. *)
Theorem trackDownload_never_throws {host : Host} (client : UnsplashClient)
    (downloadLocation : string) (console : list LogEntry) :
  (exists console',
      trackDownload client downloadLocation console = (JS.Return tt, console'))
  /\ (forall reason,
        fetch (tracking_request_of client downloadLocation) = Rejected reason ->
        trackDownload client downloadLocation console
        = (JS.Return tt, console ++ [("Failed to track download:", reason)]))
  /\ (forall r,
        fetch (tracking_request_of client downloadLocation) = Fulfilled r ->
        trackDownload client downloadLocation console = (JS.Return tt, console)).
Proof.
  unfold trackDownload. repeat split.
  - destruct (fetch _); eexists; reflexivity.
  - now intros reason ->.
  - now intros r ->.
Qed.

(** The mock of [unsplash-client.test.ts]: [throw new Error("Network error")]. *)
Lemma trackDownload_never_throws_witness :
  let reason := ThrownError (JS.MkError "Error" "Network error") in
  trackDownload (host := mock_host (Rejected reason)) Sample.client
    "https://api.unsplash.com/photos/test/download" []
  = (JS.Return tt, [("Failed to track download:", reason)]).
Proof.
  cbv zeta.
  destruct (trackDownload_never_throws
              (host := mock_host (Rejected (ThrownError (JS.MkError "Error" "Network error"))))
              Sample.client "https://api.unsplash.com/photos/test/download" [])
    as (_ & Hrejected & _).
  apply Hrejected. reflexivity.
Defined.

(** C9: a success response whose body does not parse is reported as a
    transport failure is, [Network error: ] followed by the message of the
    parse error and no status code; a rejection with a value that is not an
    [Error] gives [Unknown error occurred], without that prefix and without
    a status code. *)
Theorem malformed_success_body_is_network_error {host : Host}
    (client : UnsplashClient) (endpoint : string) (params : option Params) :
  (forall r e,
      fetch (request_of client endpoint params) = Fulfilled r ->
      ok r = true ->
      JSON_parse (body r) = JS.Throw e ->
      makeRequest client endpoint params
      = JS.Throw (ThrownAPIError
                    {| message := "Network error: " +:+ JS.error_message e;
                       statusCode := None;
                       response := Some (Cause e) |})
      /\ (forall other : Host,
            fetch (Host := other) (request_of client endpoint params)
            = Rejected (ThrownError e) ->
            makeRequest (host := other) client endpoint params
            = makeRequest client endpoint params))
  /\ (forall v,
        fetch (request_of client endpoint params) = Rejected (ThrownValue v) ->
        makeRequest client endpoint params
        = JS.Throw (ThrownAPIError
                      {| message := "Unknown error occurred";
                         statusCode := None;
                         response := None |}))
  /\ String.prefix "Network error:" "Unknown error occurred" = false.
Proof.
  split; [|split; [|reflexivity]].
  - intros r e Hfetch Hok Hparse.
    rewrite (makeRequest_successful_response _ _ _ r Hfetch Hok), Hparse.
    split; [reflexivity|].
    intros other Hother.
    now rewrite (makeRequest_rejected (host := other) _ _ _ _ Hother).
  - intros v Hfetch. now rewrite (makeRequest_rejected _ _ _ _ Hfetch).
Qed.

Lemma malformed_success_body_is_network_error_witness :
  let r := {| status := 200; body := "<html>" |} in
  makeRequest (host := mock_host (Fulfilled r)) Sample.client "/search/photos" None
  = JS.Throw (ThrownAPIError
                {| message := "Network error: Unexpected token in JSON";
                   statusCode := None;
                   response := Some (Cause (JS.SyntaxError "Unexpected token in JSON")) |})
  /\ makeRequest (host := mock_host (Rejected (ThrownValue (JString "boom"))))
       Sample.client "/search/photos" None
     = JS.Throw (ThrownAPIError
                   {| message := "Unknown error occurred";
                      statusCode := None;
                      response := None |}).
Proof.
  cbv zeta. split.
  - destruct (malformed_success_body_is_network_error
                (host := mock_host (Fulfilled {| status := 200; body := "<html>" |}))
                Sample.client "/search/photos" None) as (Hparse & _).
    destruct (Hparse {| status := 200; body := "<html>" |}
                     (JS.SyntaxError "Unexpected token in JSON")
                     eq_refl eq_refl eq_refl) as [Hmessage _].
    exact Hmessage.
  - destruct (malformed_success_body_is_network_error
                (host := mock_host (Rejected (ThrownValue (JString "boom"))))
                Sample.client "/search/photos" None) as (_ & Hvalue & _).
    apply (Hvalue (JString "boom")). reflexivity.
Defined.

(** * Further properties of the code *)

(** ** [truncateIfNeeded] *)

(** X1: with a limit of 100 or more, [truncateIfNeeded] returns its input
    exactly when the input is not longer than the limit; an input that is
    longer comes back strictly shorter than it was. *)
Theorem truncateIfNeeded_changes_iff_longer (content : string) (limit : Z) :
  JS.string_value content -> 100 <= limit ->
  (truncateIfNeeded content limit = content <-> JS.length content <= limit)
  /\ (limit < JS.length content ->
      JS.length (truncateIfNeeded content limit) < JS.length content).
Proof.
  intros Hcontent Hlimit.
  pose proof (truncateIfNeeded_within_limit content limit Hlimit Hcontent) as Hle.
  split; [split|].
  - intros Hsame. now rewrite Hsame in Hle.
  - intros Hshort. unfold truncateIfNeeded.
    now destruct (Z.leb_spec (JS.length content) limit); [|lia].
  - lia.
Qed.

Lemma truncateIfNeeded_changes_iff_longer_witness :
  let content := JS.repeat "a" 1000 in
  JS.length (truncateIfNeeded content 500) < JS.length content.
Proof.
  cbv zeta.
  destruct (truncateIfNeeded_changes_iff_longer (JS.repeat "a" 1000) 500)
    as [_ Hshorter].
  - vm_compute; discriminate.
  - lia.
  - apply Hshorter. vm_compute; reflexivity.
Defined.

(** ** Which optional lines a fragment has *)




(** The lines of a user, spelled out. *)
Lemma formatUserMarkdown_parts_eq (user : User.t) :
  formatUserMarkdown_parts user
  = [ "### " +:+ User.name user +:+ " (@" +:+ User.username user +:+ ")";
      "**ID**: " +:+ User.id user;
      "**Total Photos**: " +:+ JS.number_toString (User.total_photos user);
      "**Total Likes**: " +:+ JS.number_toString (User.total_likes user);
      "**Total Collections**: "
        +:+ JS.number_toString (User.total_collections user) ]
    ++ optional_line "**Bio**: " (User.bio user)
    ++ optional_line "**Location**: " (User.location user)
    ++ optional_line "**Instagram**: @" (User.instagram_username user)
    ++ optional_line "**Portfolio**: " (User.portfolio_url user)
    ++ [ "**Unsplash Profile**: " +:+ UserLinks.html (User.links user) ].
Proof.
  unfold formatUserMarkdown_parts, optional_line.
  destruct (JS.truthy (User.bio user)), (JS.truthy (User.location user)),
    (JS.truthy (User.instagram_username user)),
    (JS.truthy (User.portfolio_url user)); reflexivity.
Qed.

Ltac in_app_tac :=
  repeat first
    [ solve [cbn [In]; repeat first [left; reflexivity | right]]
    | apply in_or_app; left;
      solve [cbn [In]; repeat first [left; reflexivity | right]]
    | apply in_or_app; right ].

Ltac no_line_app_tac :=
  unfold no_line; rewrite ?Forall_app; repeat split;
  repeat match goal with
         | |- context [if ?b then _ else _] => destruct b
         end;
  repeat (constructor; [reflexivity|]); constructor.

(** X3: in [formatUserMarkdown] the lines for [bio], [location],
    [instagram_username] and [portfolio_url] are there exactly when the
    field is a non-empty string, each with the value of the field; the
    fragment has between 6 and 10 lines. *)
Theorem formatUserMarkdown_optional_lines (user : User.t) :
  let parts := formatUserMarkdown_parts user in
  formatUserMarkdown user = JS.join JS.LF parts
  /\ (JS.truthy (User.bio user) = true ->
      In ("**Bio**: " +:+ JS.interpolate (User.bio user)) parts)
  /\ (JS.truthy (User.bio user) = false -> no_line "**Bio**: " parts)
  /\ (JS.truthy (User.location user) = true ->
      In ("**Location**: " +:+ JS.interpolate (User.location user)) parts)
  /\ (JS.truthy (User.location user) = false -> no_line "**Location**: " parts)
  /\ (JS.truthy (User.instagram_username user) = true ->
      In ("**Instagram**: @" +:+ JS.interpolate (User.instagram_username user)) parts)
  /\ (JS.truthy (User.instagram_username user) = false ->
      no_line "**Instagram**: " parts)
  /\ (JS.truthy (User.portfolio_url user) = true ->
      In ("**Portfolio**: " +:+ JS.interpolate (User.portfolio_url user)) parts)
  /\ (JS.truthy (User.portfolio_url user) = false ->
      no_line "**Portfolio**: " parts)
  /\ (6 <= List.length parts <= 10)%nat.
Proof.
  cbv zeta. split; [reflexivity|]. rewrite formatUserMarkdown_parts_eq.
  unfold optional_line.
  split; [intros ->; in_app_tac|]. split; [intros ->; no_line_app_tac|].
  split; [intros ->; in_app_tac|]. split; [intros ->; no_line_app_tac|].
  split; [intros ->; in_app_tac|]. split; [intros ->; no_line_app_tac|].
  split; [intros ->; in_app_tac|]. split; [intros ->; no_line_app_tac|].
  rewrite !List.length_app.
  destruct (JS.truthy (User.bio user)), (JS.truthy (User.location user)),
    (JS.truthy (User.instagram_username user)),
    (JS.truthy (User.portfolio_url user)); cbn; lia.
Qed.

Lemma formatUserMarkdown_optional_lines_witness :
  In "**Bio**: Professional photographer" (formatUserMarkdown_parts Sample.user)
  /\ no_line "**Bio**: " (formatUserMarkdown_parts Sample.curator).
Proof.
  split.
  - destruct (formatUserMarkdown_optional_lines Sample.user) as (_ & Hbio & _).
    apply Hbio. reflexivity.
  - destruct (formatUserMarkdown_optional_lines Sample.curator) as (_ & _ & Hbio & _).
    apply Hbio. reflexivity.
Defined.

(** X4: [formatCollectionMarkdown] returns, joined by line feeds, its
    six fixed lines in every fragment, and the description line, between
    the count of photos and the date, exactly when the description is a
    non-empty string. *)
Theorem formatCollectionMarkdown_lines {locale : Locale}
    (collection : Collection.t) :
  let fixed_before :=
    [ "### " +:+ Collection.title collection;
      "**ID**: " +:+ Collection.id collection;
      "**Curator**: " +:+ User.name (Collection.user collection)
        +:+ " (@" +:+ User.username (Collection.user collection) +:+ ")";
      "**Total Photos**: "
        +:+ JS.number_toString (Collection.total_photos collection) ] in
  let fixed_after :=
    [ "**Published**: " +:+ toLocaleDateString (Collection.published_at collection);
      "**Unsplash URL**: " +:+ CollectionLinks.html (Collection.links collection) ] in
  (JS.truthy (Collection.description collection) = true ->
   formatCollectionMarkdown collection
   = JS.join JS.LF
       (fixed_before
        ++ ["**Description**: "
              +:+ JS.interpolate (Collection.description collection)]
        ++ fixed_after))
  /\ (JS.truthy (Collection.description collection) = false ->
      formatCollectionMarkdown collection
      = JS.join JS.LF (fixed_before ++ fixed_after)
      /\ no_line "**Description**: " (fixed_before ++ fixed_after)).
Proof.
  cbv zeta. unfold formatCollectionMarkdown, formatCollectionMarkdown_parts.
  destruct (Collection.description collection) as [[|? ?]|];
    (split; [intros Hd; try discriminate; try reflexivity|]);
    intros Hd; try discriminate; (split; [reflexivity|no_line_tac]).
Qed.

Lemma formatCollectionMarkdown_lines_witness :
  formatCollectionMarkdown (locale := EnUS.locale) Sample.collection
  = JS.join JS.LF
      [ "### Test Collection";
        "**ID**: coll-123";
        "**Curator**: Test Curator (@curator)";
        "**Total Photos**: 25";
        "**Published**: 1/1/2024";
        "**Unsplash URL**: https://unsplash.com/collections/coll-123" ].
Proof.
  destruct (formatCollectionMarkdown_lines (locale := EnUS.locale) Sample.collection)
    as [_ Habsent].
  destruct (Habsent eq_refl) as [Hfragment _]. exact Hfragment.
Defined.

(** ** The list variants *)

Lemma prefix_app_r (label block more : string) :
  String.prefix label block = true ->
  String.prefix label (block +:+ more) = true.
Proof.
  revert block. induction label as [|a label IH]; intros block Hprefix.
  - now destruct (block +:+ more).
  - destruct block as [|b block]; [discriminate|].
    change (String b block +:+ more) with (String b (block +:+ more)).
    simpl in *. destruct (ascii_dec a b); [now apply IH|discriminate].
Qed.

Lemma join_cons_prefix (sep label block : string) (blocks : list string) :
  String.prefix label block = true ->
  String.prefix label (JS.join sep (block :: blocks)) = true.
Proof.
  intros Hprefix. unfold JS.join. cbn [String.concat].
  destruct blocks as [|next blocks]; [exact Hprefix|].
  now apply prefix_app_r.
Qed.

Ltac first_entry_tac :=
  unfold compose;
  change (JS.number_toString (Z.of_nat 0 + 1)) with "1";
  match goal with
  | |- String.prefix _ (_ +:+ _ +:+ ?rest) = true =>
      change (String.prefix "1. **" ("1. **" +:+ rest) = true)
  end;
  apply prefix_app.

(** X5: each list formatter returns the empty string for the empty list
    and for no other list: the text for a non-empty list starts with the
    numbered entry [1. **]. *)
Theorem list_formatters_empty_iff_no_items :
  (forall photos : list Photo.t,
      (photos = [] -> formatPhotosListMarkdown photos = EmptyString)
      /\ (photos <> [] ->
          String.prefix "1. **" (formatPhotosListMarkdown photos) = true))
  /\ (forall collections : list Collection.t,
        (collections = [] ->
         formatCollectionsListMarkdown collections = EmptyString)
        /\ (collections <> [] ->
            String.prefix "1. **" (formatCollectionsListMarkdown collections) = true))
  /\ (forall users : list User.t,
        (users = [] -> formatUsersListMarkdown users = EmptyString)
        /\ (users <> [] ->
            String.prefix "1. **" (formatUsersListMarkdown users) = true)).
Proof.
  repeat split; try (intros ->; reflexivity).
  - destruct photos as [|photo photos]; [congruence|]. intros _.
    unfold formatPhotosListMarkdown. rewrite imap_cons.
    apply join_cons_prefix. first_entry_tac.
  - destruct collections as [|collection collections]; [congruence|]. intros _.
    unfold formatCollectionsListMarkdown. rewrite imap_cons.
    apply join_cons_prefix. first_entry_tac.
  - destruct users as [|user users]; [congruence|]. intros _.
    unfold formatUsersListMarkdown. rewrite imap_cons.
    apply join_cons_prefix. first_entry_tac.
Qed.

Lemma list_formatters_empty_iff_no_items_witness :
  String.prefix "1. **" (formatUsersListMarkdown [Sample.user; Sample.curator]) = true.
Proof.
  destruct list_formatters_empty_iff_no_items as (_ & _ & Husers).
  destruct (Husers [Sample.user; Sample.curator]) as [_ Hsome].
  apply Hsome. discriminate.
Defined.

(** ** The client *)

(** X6: a client is constructed exactly from a non-empty access key; an
    empty key throws an [Error].  Every request of a constructed client
    carries the key in its [Authorization] header, [makeRequest] together
    with [Accept-Version: v1], [trackDownload] alone and to the address it
    was given. *)
Theorem new_UnsplashClient_spec (key : string) :
  (key = EmptyString ->
   exists message,
     new_UnsplashClient key = JS.Throw (JS.MkError "Error" message)
     /\ String.prefix "Unsplash Access Key is required" message = true)
  /\ (key <> EmptyString ->
      exists client,
        new_UnsplashClient key = JS.Return client
        /\ accessKey client = key
        /\ (forall endpoint params,
              headers (request_of client endpoint params)
              = [("Authorization", "Client-ID " +:+ key); ("Accept-Version", "v1")])
        /\ (forall downloadLocation,
              tracking_request_of client downloadLocation
              = {| url := downloadLocation;
                   headers := [("Authorization", "Client-ID " +:+ key)] |})).
Proof.
  split.
  - intros ->. eexists. split; reflexivity.
  - intros Hkey. exists {| accessKey := key |}.
    destruct key as [|c key]; [congruence|]. repeat split.
Qed.

Lemma new_UnsplashClient_spec_witness :
  new_UnsplashClient "test-key" = JS.Return Sample.client.
Proof.
  destruct (new_UnsplashClient_spec "test-key") as [_ Hsome].
  destruct (Hsome ltac:(discriminate)) as (client & Hnew & Hkey & _).
  rewrite Hnew. f_equal. destruct client as [key]. cbn in Hkey. now subst.
Defined.


(** X7: [makeRequest] returns a value exactly when [fetch] is fulfilled
    with an [ok] response whose body parses, and the value is the parsed
    body; in every other case it throws, and what it throws is always an
    [UnsplashAPIError]. *)
Theorem makeRequest_outcome {host : Host} (client : UnsplashClient)
    (endpoint : string) (params : option Params) :
  (forall value,
      makeRequest client endpoint params = JS.Return value
      <-> exists r,
            fetch (request_of client endpoint params) = Fulfilled r
            /\ ok r = true
            /\ JSON_parse (body r) = JS.Return value)
  /\ (forall thrown,
        makeRequest client endpoint params = JS.Throw thrown ->
        exists error, thrown = ThrownAPIError error).
Proof.
  destruct (fetch (request_of client endpoint params)) as [reason|r] eqn:Hfetch.
  - rewrite (makeRequest_rejected _ _ _ _ Hfetch). split.
    + intros value. split.
      * destruct reason; discriminate.
      * intros (r & Hr & _). discriminate.
    + intros thrown. destruct reason; intros [= <-]; eauto.
  - destruct (ok r) eqn:Hok.
    + rewrite (makeRequest_successful_response _ _ _ r Hfetch Hok). split.
      * intros value. split.
        -- destruct (JSON_parse (body r)) eqn:Hparse; [|discriminate].
           intros [= <-]. eauto.
        -- intros (r' & [= <-] & _ & ->). reflexivity.
      * intros thrown. destruct (JSON_parse (body r)); [discriminate|].
        intros [= <-]. eauto.
    + rewrite (makeRequest_failed_response _ _ _ r Hfetch Hok). split.
      * intros value. split.
        -- destruct (Value.ToString _); discriminate.
        -- intros (r' & [= <-] & Hok' & _). congruence.
      * intros thrown. destruct (Value.ToString _); intros [= <-]; eauto.
Qed.

(** X8: a status code on the error thrown by [makeRequest] is the status
    of a response that [fetch] delivered and that was not [ok], and the
    error then carries the text of that response's body; the one other
    origin is an [UnsplashAPIError] that [fetch] itself rejected with,
    which is passed on unchanged. *)
Theorem statusCode_is_the_response_status {host : Host} (client : UnsplashClient)
    (endpoint : string) (params : option Params) (error : UnsplashAPIError)
    (code : Z) :
  makeRequest client endpoint params = JS.Throw (ThrownAPIError error) ->
  statusCode error = Some code ->
  (exists r,
      fetch (request_of client endpoint params) = Fulfilled r
      /\ ok r = false
      /\ status r = code
      /\ response error = Some (BodyText (body r)))
  \/ fetch (request_of client endpoint params) = Rejected (ThrownAPIError error).
Proof.
  intros Hthrown Hcode.
  destruct (fetch (request_of client endpoint params)) as [reason|r] eqn:Hfetch.
  - rewrite (makeRequest_rejected _ _ _ _ Hfetch) in Hthrown.
    destruct reason; injection Hthrown as <-; [now right|discriminate..].
  - left. exists r. destruct (ok r) eqn:Hok.
    + rewrite (makeRequest_successful_response _ _ _ r Hfetch Hok) in Hthrown.
      destruct (JSON_parse (body r)); [discriminate|].
      injection Hthrown as <-. discriminate.
    + rewrite (makeRequest_failed_response _ _ _ r Hfetch Hok) in Hthrown.
      destruct (Value.ToString _); injection Hthrown as <-; [|discriminate].
      cbn in Hcode. injection Hcode as <-. repeat split.
Qed.

Lemma statusCode_is_the_response_status_witness :
  let r := {| status := 401; body := Sample.unauthorized_body |} in
  (exists r',
      fetch (Host := mock_host (Fulfilled r))
        (request_of Sample.client "/search/photos" None) = Fulfilled r'
      /\ ok r' = false
      /\ status r' = 401
      /\ Some (BodyText Sample.unauthorized_body) = Some (BodyText (body r')))
  \/ fetch (Host := mock_host (Fulfilled r))
       (request_of Sample.client "/search/photos" None)
     = Rejected (ThrownAPIError
                   {| message := "Unauthorized";
                      statusCode := Some 401;
                      response := Some (BodyText Sample.unauthorized_body) |}).
Proof.
  cbv zeta.
  apply (statusCode_is_the_response_status
           (host := mock_host
                      (Fulfilled {| status := 401; body := Sample.unauthorized_body |}))
           Sample.client "/search/photos" None
           {| message := "Unauthorized";
              statusCode := Some 401;
              response := Some (BodyText Sample.unauthorized_body) |}
           401);
    reflexivity.
Defined.

(** ** The query string *)

Lemma occurrences_app (c : ascii) (s t : string) :
  occurrences c (s +:+ t) = (occurrences c s + occurrences c t)%nat.
Proof.
  induction s as [|d s IH]; [reflexivity|].
  change (String d s +:+ t) with (String d (s +:+ t)). simpl. rewrite IH. lia.
Qed.

Lemma string_forall_app (P : ascii -> bool) (s t : string) :
  string_forall P (s +:+ t) = string_forall P s && string_forall P t.
Proof.
  induction s as [|d s IH]; [reflexivity|].
  change (String d s +:+ t) with (String d (s +:+ t)). simpl.
  now rewrite IH, andb_assoc.
Qed.

Lemma string_forall_impl (P Q : ascii -> bool) (s : string) :
  (forall c, P c = true -> Q c = true) ->
  string_forall P s = true -> string_forall Q s = true.
Proof.
  intros HPQ. induction s as [|d s IH]; [reflexivity|].
  simpl. intros [Hd Hs]%andb_prop. now rewrite (HPQ d Hd), (IH Hs).
Qed.

Lemma string_forall_occurrences (P : ascii -> bool) (c : ascii) (s : string) :
  P c = false -> string_forall P s = true -> occurrences c s = O.
Proof.
  intros Hc. induction s as [|d s IH]; [reflexivity|].
  simpl. intros [Hd Hs]%andb_prop. rewrite (IH Hs).
  destruct (Ascii.eqb_spec c d) as [->|_]; [congruence|reflexivity].
Qed.

Lemma serialize_code_unit_component (c : ascii) :
  string_forall component_char (URLSearchParams.serialize_code_unit c) = true.
Proof. destruct c as [[] [] [] [] [] [] [] []]; reflexivity. Qed.

Lemma serialize_string_component (s : string) :
  string_forall component_char (URLSearchParams.serialize_string s) = true.
Proof.
  induction s as [|c s IH]; [reflexivity|].
  simpl. now rewrite string_forall_app, serialize_code_unit_component, IH.
Qed.

Lemma serialize_string_occurrences (c : ascii) (s : string) :
  component_char c = false ->
  occurrences c (URLSearchParams.serialize_string s) = O.
Proof.
  intros Hc. apply (string_forall_occurrences component_char); [exact Hc|].
  apply serialize_string_component.
Qed.

Lemma percent_decode_code_unit (c : ascii) (rest : string) :
  percent_decode (URLSearchParams.serialize_code_unit c +:+ rest)
  = String c (percent_decode rest).
Proof. destruct c as [[] [] [] [] [] [] [] []]; reflexivity. Qed.

(** The parser reads back what the serializer wrote. *)
Lemma percent_decode_serialize (s : string) :
  percent_decode (URLSearchParams.serialize_string s) = s.
Proof.
  induction s as [|c s IH]; [reflexivity|].
  simpl. now rewrite percent_decode_code_unit, IH.
Qed.

Lemma serialize_string_inj (s t : string) :
  URLSearchParams.serialize_string s = URLSearchParams.serialize_string t -> s = t.
Proof.
  intros Heq. apply (f_equal percent_decode) in Heq.
  now rewrite !percent_decode_serialize in Heq.
Qed.

(** Two texts that agree up to the first [c] agree on both sides of it. *)
Lemma split_at_first (c : ascii) (s s' r r' : string) :
  occurrences c s = O -> occurrences c s' = O ->
  s +:+ String c r = s' +:+ String c r' -> s = s' /\ r = r'.
Proof.
  revert s'. induction s as [|d s IH]; intros [|d' s'] Hs Hs' Heq.
  - now injection Heq as <-.
  - change (String d' s' +:+ String c r') with (String d' (s' +:+ String c r')) in Heq.
    injection Heq as <- _. simpl in Hs'. rewrite Ascii.eqb_refl in Hs'. lia.
  - change (String d s +:+ String c r) with (String d (s +:+ String c r)) in Heq.
    injection Heq as -> _. simpl in Hs. rewrite Ascii.eqb_refl in Hs. lia.
  - change (String d s +:+ String c r) with (String d (s +:+ String c r)) in Heq.
    change (String d' s' +:+ String c r') with (String d' (s' +:+ String c r')) in Heq.
    injection Heq as <- Heq. simpl in Hs, Hs'.
    destruct (IH s') as [-> ->]; try assumption; try lia. now split.
Qed.

Lemma serialized_pair_inj (p q : string * string) :
  serialized_pair p = serialized_pair q -> p = q.
Proof.
  destruct p as [n v], q as [n' v']. unfold serialized_pair. cbn [fst snd].
  change ("=" +:+ ?x) with (String "="%char x).
  intros Heq. apply (split_at_first "="%char) in Heq as [Hn Hv];
    try (now apply serialize_string_occurrences).
  now rewrite (serialize_string_inj _ _ Hn), (serialize_string_inj _ _ Hv).
Qed.

Lemma serialized_pair_occurrences (p : string * string) :
  occurrences "&"%char (serialized_pair p) = O
  /\ occurrences "="%char (serialized_pair p) = 1%nat.
Proof.
  unfold serialized_pair. rewrite !occurrences_app.
  rewrite !serialize_string_occurrences by reflexivity. now split.
Qed.

Lemma toString_cons (p : string * string) (rest : URLSearchParams.t) :
  URLSearchParams.toString (p :: rest)
  = serialized_pair p
      +:+ match rest with
          | [] => EmptyString
          | _ :: _ => String "&"%char (URLSearchParams.toString rest)
          end.
Proof.
  destruct rest as [|q rest]; [|reflexivity].
  rewrite app_empty_r. reflexivity.
Qed.

Lemma toString_occurrences (queryParams : URLSearchParams.t) :
  occurrences "&"%char (URLSearchParams.toString queryParams)
  = (List.length queryParams - 1)%nat
  /\ occurrences "="%char (URLSearchParams.toString queryParams)
     = List.length queryParams.
Proof.
  induction queryParams as [|p rest [IHamp IHeq]]; [now split|].
  rewrite toString_cons, !occurrences_app.
  destruct (serialized_pair_occurrences p) as [-> ->].
  destruct rest as [|q rest]; [now split|].
  cbn [occurrences Ascii.eqb]. rewrite IHamp, IHeq. cbn. split; lia.
Qed.

Lemma toString_query_chars (queryParams : URLSearchParams.t) :
  string_forall query_char (URLSearchParams.toString queryParams) = true.
Proof.
  assert (Hcomponent : forall s,
            string_forall query_char (URLSearchParams.serialize_string s) = true).
  { intros s. apply (string_forall_impl component_char);
      [|apply serialize_string_component].
    intros c Hc. unfold query_char. now rewrite Hc. }
  induction queryParams as [|p rest IH]; [reflexivity|].
  rewrite toString_cons. unfold serialized_pair.
  rewrite !string_forall_app, !Hcomponent.
  destruct rest as [|q rest]; [reflexivity|].
  cbn [string_forall]. now rewrite IH.
Qed.

Lemma toString_inj (queryParams queryParams' : URLSearchParams.t) :
  URLSearchParams.toString queryParams = URLSearchParams.toString queryParams' ->
  queryParams = queryParams'.
Proof.
  revert queryParams'.
  induction queryParams as [|p rest IH]; intros [|p' rest'] Heq.
  - reflexivity.
  - symmetry in Heq. now apply toString_nil_iff in Heq.
  - now apply toString_nil_iff in Heq.
  - rewrite !toString_cons in Heq.
    destruct (serialized_pair_occurrences p) as [Hp _].
    destruct (serialized_pair_occurrences p') as [Hp' _].
    destruct rest as [|q rest], rest' as [|q' rest'].
    + rewrite !app_empty_r in Heq. now rewrite (serialized_pair_inj _ _ Heq).
    + apply (f_equal (occurrences "&"%char)) in Heq.
      rewrite !occurrences_app, Hp, Hp' in Heq. cbn in Heq. lia.
    + apply (f_equal (occurrences "&"%char)) in Heq.
      rewrite !occurrences_app, Hp, Hp' in Heq. cbn in Heq. lia.
    + apply (split_at_first "&"%char) in Heq as [Hpair Hrest]; try assumption.
      now rewrite (serialized_pair_inj _ _ Hpair), (IH _ Hrest).
Qed.

(** X9: whatever the keys and values contain, the query string of a
    request has exactly one [=] for each present entry and one [&] between
    two consecutive entries, and apart from these separators it is made of
    ASCII letters, digits and the characters [*], [-], [.], [_], [+] and
    [%] only: no value can add a parameter, a fragment or a space. *)
Theorem query_string_is_well_formed (params : option Params) :
  let query := URLSearchParams.toString (queryParams_of params) in
  let entries := present (default [] params) in
  occurrences "="%char query = List.length entries
  /\ occurrences "&"%char query = (List.length entries - 1)%nat
  /\ string_forall query_char query = true
  /\ occurrences " "%char query = O
  /\ occurrences "#"%char query = O
  /\ occurrences "?"%char query = O.
Proof.
  cbv zeta. rewrite queryParams_of_present.
  pose proof (toString_occurrences (present (default [] params))) as [Hamp Heq].
  pose proof (toString_query_chars (present (default [] params))) as Hchars.
  repeat split; try assumption;
    now apply (string_forall_occurrences query_char).
Qed.

(** X10: for one endpoint, two parameter mappings give the same address
    only if they have the same present entries: the same keys with the same
    stringified values in the same order.  This holds for the strings of
    the model, whose code units are below 256: on them the serializer is
    injective, the form-urlencoded parser reading every serialized name
    and value back.  (Strings with unpaired surrogates, which the platform
    replaces by U+FFFD before it serializes, are outside the model.) *)
Theorem url_of_determines_present_entries (endpoint : string)
    (params params' : option Params) :
  url_of endpoint params = url_of endpoint params' ->
  present (default [] params) = present (default [] params').
Proof.
  unfold url_of. intros Heq.
  apply (inj (String.app UNSPLASH_API_URL)) in Heq.
  apply (inj (String.app endpoint)) in Heq.
  rewrite <- !queryParams_of_present. apply toString_inj.
  destruct (URLSearchParams.toString (queryParams_of params)) as [|c q],
           (URLSearchParams.toString (queryParams_of params')) as [|c' q'];
    cbn [JS.truthy] in Heq;
    repeat change ("?" +:+ ?x) with (String "?"%char x) in Heq;
    try discriminate; [reflexivity|].
  injection Heq as -> ->. reflexivity.
Qed.

Lemma url_of_determines_present_entries_witness :
  present [("query", Some (SString "a&b=c")); ("page", None)]
  = present [("query", Some (SString "a&b=c"))].
Proof.
  apply (url_of_determines_present_entries "/search/photos"
           (Some [("query", Some (SString "a&b=c")); ("page", None)])
           (Some [("query", Some (SString "a&b=c"))])).
  reflexivity.
Defined.

(** ** The tools *)

Lemma serialize_number (n : Z) :
  JS.safe_integer n ->
  URLSearchParams.serialize_string (JS.number_toString n) = pretty n.
Proof.
  intros Hsafe. rewrite <- (number_toString_safe n Hsafe).
  now apply serialize_unreserved, number_toString_unreserved.
Qed.

Lemma url_of_present (endpoint : string) (entries : Params)
    (p : string * string) (rest : list (string * string)) :
  present entries = p :: rest ->
  url_of endpoint (Some entries)
  = UNSPLASH_API_URL +:+ endpoint +:+ "?" +:+ URLSearchParams.toString (p :: rest).
Proof.
  intros Hpresent. unfold url_of. rewrite queryParams_of_present.
  cbn [default from_option id]. rewrite Hpresent.
  destruct (URLSearchParams.toString (p :: rest)) eqn:Hquery; [|reflexivity].
  now apply toString_nil_iff in Hquery.
Qed.

Lemma serialize_orientation (o : PhotoOrientation.t) :
  URLSearchParams.serialize_string (PhotoOrientation.value o) = PhotoOrientation.value o.
Proof. now destruct o. Qed.

Lemma serialize_content_filter (f : ContentFilter.t) :
  URLSearchParams.serialize_string (ContentFilter.value f) = ContentFilter.value f.
Proof. now destruct f. Qed.

Lemma serialize_order_by (o : PhotoOrderBy.t) :
  URLSearchParams.serialize_string (PhotoOrderBy.value o) = PhotoOrderBy.value o.
Proof. now destruct o. Qed.

Lemma serialize_feed_order (o : FeedOrder.t) :
  URLSearchParams.serialize_string (FeedOrder.value o) = FeedOrder.value o.
Proof. now destruct o. Qed.

Ltac address_tac :=
  rewrite !toString_cons; unfold serialized_pair; cbn [fst snd];
  repeat (rewrite serialize_number by assumption);
  rewrite ?serialize_orientation, ?serialize_content_filter,
    ?serialize_order_by, ?serialize_feed_order, ?app_empty_r;
  reflexivity.

(** X11: the address that [unsplash_search_photos] requests when [page]
    and [per_page] are integers of at most [2^53 - 1]: the base address
    and [/search/photos], then [query], [page] and [per_page], then
    [orientation] when one is given and [color] when it is a non-empty
    string, then [content_filter] and [order_by], in this order; the query
    and the color are form-urlencoded, the two numbers are sent with their
    decimal digits and the enumeration values as they are. *)
Theorem search_photos_address (client : UnsplashClient)
    (params : SearchPhotosParams.t) :
  JS.safe_integer (SearchPhotosParams.page params) ->
  JS.safe_integer (SearchPhotosParams.per_page params) ->
  url (request_of client "/search/photos" (Some (search_photos_request params)))
  = UNSPLASH_API_URL +:+ "/search/photos?query="
      +:+ URLSearchParams.serialize_string (SearchPhotosParams.query params)
      +:+ "&page=" +:+ pretty (SearchPhotosParams.page params)
      +:+ "&per_page=" +:+ pretty (SearchPhotosParams.per_page params)
      +:+ match SearchPhotosParams.orientation params with
          | Some orientation => "&orientation=" +:+ PhotoOrientation.value orientation
          | None => EmptyString
          end
      +:+ match SearchPhotosParams.color params with
          | Some (String c color) =>
              "&color=" +:+ URLSearchParams.serialize_string (String c color)
          | _ => EmptyString
          end
      +:+ "&content_filter="
      +:+ ContentFilter.value (SearchPhotosParams.content_filter params)
      +:+ "&order_by=" +:+ PhotoOrderBy.value (SearchPhotosParams.order_by params).
Proof.
  intros Hpage Hper_page.
  unfold request_of; cbn [url]. unfold search_photos_request.
  destruct (SearchPhotosParams.orientation params) as [o|];
    destruct (SearchPhotosParams.color params) as [[|c color]|];
    cbn [app JS.truthy JS.interpolate];
    (erewrite url_of_present
       by (cbn [present flat_map app fst snd String_of]; reflexivity)).
  all: address_tac.
Qed.

(** The search for [nature] of the tests. *)
Lemma search_photos_address_witness :
  url (request_of Sample.client "/search/photos"
         (Some (search_photos_request Sample.search_params)))
  = "https://api.unsplash.com/search/photos?query=nature&page=1&per_page=10&orientation=landscape&content_filter=low&order_by=relevant".
Proof.
  apply (search_photos_address Sample.client Sample.search_params);
    vm_compute; discriminate.
Defined.



(** A search response of the declared type has its [results]. *)
Lemma search_has_results {A : Type} (read : JSON -> option A) (body : JSON)
    (data : SearchResponse.t A) :
  Decode.search read body = Some data ->
  exists results,
    Decode.property body "results" = Some results
    /\ Decode.array read results = Some (SearchResponse.results data).
Proof.
  unfold Decode.search. intros Hdata.
  destruct (Decode.num body "total"); [|discriminate].
  destruct (Decode.num body "total_pages"); [|discriminate].
  destruct (Decode.property body "results") as [results|]; [|discriminate].
  cbn in Hdata.
  destruct (Decode.array read results) as [items|] eqn:Hitems; [|discriminate].
  injection Hdata as <-. now exists results.
Qed.





(** X13: [unsplash_search_photos] on a body of the declared type.  An
    empty list of results is answered with the plain text [No photos found
    for query: "..."] in both output formats, before the format is looked
    at.  Otherwise the JSON format returns the output object, with the
    totals of the body, the page and page size of the parameters and the
    results of the body, as structured content and serialized as text; the
    markdown format returns the document passed through the length guard,
    with no structured content. *)
Theorem unsplash_search_photos_result {host : Host} {locale : Locale}
    {stringify : Stringify} {untyped : Untyped}
    (client : UnsplashClient) (params : SearchPhotosParams.t) (body : JSON)
    (data : SearchResponse.t Photo.t) :
  makeRequest client "/search/photos" (Some (search_photos_request params))
  = JS.Return body ->
  Decode.search Decode.photo body = Some data ->
  let result := unsplash_search_photos client params in
  exists results,
    Decode.property body "results" = Some results
    /\ (SearchResponse.results data = [] ->
        result
        = plain ("No photos found for query: " +:+ JS.DQ
                   +:+ SearchPhotosParams.query params +:+ JS.DQ))
    /\ (SearchResponse.results data <> [] ->
        SearchPhotosParams.response_format params = ResponseFormat.JSON ->
        let output :=
          JObject [ ("total", JNumber (SearchResponse.total data));
                    ("total_pages", JNumber (SearchResponse.total_pages data));
                    ("page", JNumber (SearchPhotosParams.page params));
                    ("per_page", JNumber (SearchPhotosParams.per_page params));
                    ("results", results) ] in
        result = {| text := JSON_stringify output;
                    structuredContent := Some output;
                    isError := false |})
    /\ (SearchResponse.results data <> [] ->
        SearchPhotosParams.response_format params = ResponseFormat.MARKDOWN ->
        result = plain (truncateIfNeeded_default (search_photos_markdown params data))
        /\ (JS.string_value (search_photos_markdown params data) ->
            JS.length (text result) <= CHARACTER_LIMIT)).
Proof.
  intros Hattempt Hdata. cbv zeta.
  destruct (search_has_results _ _ _ Hdata) as (results & Hresults & _).
  exists results. split; [exact Hresults|].
  unfold unsplash_search_photos. rewrite Hattempt, Hdata, Hresults.
  destruct (SearchResponse.results data) as [|photo photos].
  - split; [reflexivity|]. split; intros Hsome; now destruct Hsome.
  - cbn [List.length Nat.eqb]. split; [discriminate|].
    split; intros _ ->; [reflexivity|].
    split; [reflexivity|].
    intros Hvalue. cbn [text plain].
    now apply truncateIfNeeded_within_limit.
Qed.

(** A response with the two photos of the tests, in markdown. *)
Lemma unsplash_search_photos_result_witness :
  let host := Sample.host_answering Sample.search_body in
  Decode.search Decode.photo Sample.search_body = Some Sample.search_response
  /\ JS.length
       (text (unsplash_search_photos (host := host) (locale := EnUS.locale)
                (stringify := Sample.stringify) (untyped := Sample.untyped)
                Sample.client Sample.search_params))
     <= CHARACTER_LIMIT.
Proof.
  cbv zeta. split; [reflexivity|].
  destruct (unsplash_search_photos_result
              (host := Sample.host_answering Sample.search_body)
              (locale := EnUS.locale) (stringify := Sample.stringify)
              (untyped := Sample.untyped)
              Sample.client Sample.search_params Sample.search_body
              Sample.search_response eq_refl eq_refl)
    as (results & _ & _ & _ & Hmarkdown).
  destruct Hmarkdown as [_ Hbound]; [discriminate|reflexivity|].
  apply Hbound. vm_compute; discriminate.
Defined.

(** X14: [unsplash_track_download] first looks the photo up at
    [/photos/] followed by the id as it is given, with no encoding.  Once
    that request has returned a photo of the declared type, the tool
    confirms the download with the address [urls.regular] of the photo
    whatever becomes of the tracking call: a rejected tracking call only
    leaves an entry in the console, and a response is not examined. *)
Theorem unsplash_track_download_result {host : Host} {untyped : Untyped}
    (client : UnsplashClient) (params : DownloadPhotoParams.t)
    (console : list LogEntry) (body : JSON) (photo : Photo.t) :
  makeRequest client ("/photos/" +:+ DownloadPhotoParams.id params) None
  = JS.Return body ->
  Decode.photo body = Some photo ->
  let tracking :=
    tracking_request_of client (PhotoLinks.download_location (Photo.links photo)) in
  url (request_of client ("/photos/" +:+ DownloadPhotoParams.id params) None)
  = UNSPLASH_API_URL +:+ "/photos/" +:+ DownloadPhotoParams.id params
  /\ fst (unsplash_track_download client params console)
     = plain ("Download tracked for photo " +:+ DownloadPhotoParams.id params
                +:+ ". You can download the photo from: "
                +:+ PhotoUrls.regular (Photo.urls photo))
  /\ (forall reason,
        fetch tracking = Rejected reason ->
        snd (unsplash_track_download client params console)
        = console ++ [("Failed to track download:", reason)])
  /\ (forall r,
        fetch tracking = Fulfilled r ->
        snd (unsplash_track_download client params console) = console).
Proof.
  intros Hattempt Hphoto. cbv zeta. split.
  { unfold request_of, url_of. cbn. now rewrite app_empty_r. }
  unfold unsplash_track_download. rewrite Hattempt, Hphoto. unfold trackDownload.
  destruct (fetch _) as [reason|r]; cbn [fst snd]; repeat split;
    intros ? [= <-]; reflexivity.
Qed.

Lemma unsplash_track_download_result_witness :
  let host := Sample.host_answering (Sample.body_of_photo Sample.photo) in
  Decode.photo (Sample.body_of_photo Sample.photo) = Some Sample.photo
  /\ fst (unsplash_track_download (host := host) (untyped := Sample.untyped)
            Sample.client {| DownloadPhotoParams.id := "test-123" |} [])
     = plain "Download tracked for photo test-123. You can download the photo from: https://example.com/regular".
Proof.
  cbv zeta. split; [reflexivity|].
  destruct (unsplash_track_download_result
              (host := Sample.host_answering (Sample.body_of_photo Sample.photo))
              (untyped := Sample.untyped)
              Sample.client {| DownloadPhotoParams.id := "test-123" |} []
              (Sample.body_of_photo Sample.photo) Sample.photo eq_refl eq_refl)
    as (_ & Hconfirmed & _).
  exact Hconfirmed.
Defined.

(** *** The tool without the length guard *)

Lemma join_length_ge (sep part : string) (parts : list string) :
  In part parts -> JS.length part <= JS.length (JS.join sep parts).
Proof.
  unfold JS.join. induction parts as [|first rest IH]; [intros []|].
  intros [->|Hin].
  - destruct rest as [|second rest]; [simpl; lia|].
    change (String.concat sep (part :: second :: rest))
      with (part +:+ sep +:+ String.concat sep (second :: rest)).
    rewrite JS_length_app. unfold JS.length. lia.
  - destruct rest as [|second rest]; [destruct Hin|].
    change (String.concat sep (first :: second :: rest))
      with (first +:+ sep +:+ String.concat sep (second :: rest)).
    rewrite !JS_length_app. specialize (IH Hin). unfold JS.length in *. lia.
Qed.

Lemma imap_In {A B : Type} (f : nat -> A -> B) (l : list A) (x : A) :
  In x l -> exists index, In (f index x) (imap f l).
Proof.
  revert f. induction l as [|y l IH]; intros f; [intros []|].
  intros [->|Hin].
  - exists 0%nat. now left.
  - destruct (IH (f ∘ S) Hin) as [index Hindex].
    exists (S index). now right.
Qed.

Lemma formatPhotosListMarkdown_longer_than_caption (photos : list Photo.t)
    (photo : Photo.t) (caption : string) :
  In photo photos -> Photo.alt_description photo = Some caption ->
  JS.length caption < JS.length (formatPhotosListMarkdown photos).
Proof.
  intros Hin Hcaption. unfold formatPhotosListMarkdown.
  destruct (imap_In
              (fun index photo =>
                 JS.number_toString (Z.of_nat index + 1) +:+ ". **"
                   +:+ JS.interpolate (JS.or (Photo.alt_description photo) (Some "Photo"))
                   +:+ "** (ID: " +:+ Photo.id photo +:+ ")"
                   +:+ INDENT +:+ "By " +:+ User.name (Photo.user photo)
                   +:+ " (@" +:+ User.username (Photo.user photo) +:+ ")"
                   +:+ INDENT +:+ JS.number_toString (Photo.width photo)
                   +:+ " " +:+ JS.TIMES +:+ " " +:+ JS.number_toString (Photo.height photo)
                   +:+ "px | " +:+ JS.number_toString (Photo.likes photo) +:+ " likes"
                   +:+ INDENT +:+ PhotoLinks.html (Photo.links photo))
              photos photo Hin) as [index Hentry].
  apply (join_length_ge (JS.LF +:+ JS.LF)) in Hentry.
  cbv zeta. eapply Z.lt_le_trans; [|exact Hentry].
  rewrite Hcaption. rewrite !JS_length_app.
  assert (JS.length caption
          <= JS.length (JS.interpolate (JS.or (Some caption) (Some "Photo"))))
    as Hlabel.
  { destruct caption; [vm_compute; discriminate|]. cbn. lia. }
  assert (0 < JS.length ". **") by reflexivity.
  unfold JS.length in *. lia.
Qed.

(** X15: [unsplash_get_random] on a body of the declared type, which is a
    photo or an array of photos.  A body that is not an array is treated
    as the array of that one photo.  The JSON format returns the array,
    serialized and under [photos].  The markdown format returns the
    document as it is built, without the length guard of the other listing
    tools: its text is longer than the caption of every photo in it,
    whatever the length of the caption.  No message announces an empty
    array. *)
Theorem unsplash_get_random_result {host : Host} {stringify : Stringify}
    {untyped : Untyped}
    (client : UnsplashClient) (params : GetRandomPhotoParams.t) (body : JSON)
    (photos : list Photo.t) :
  makeRequest client "/photos/random" (Some (random_photo_request params))
  = JS.Return body ->
  Decode.photo_or_photos body = Some photos ->
  let result := unsplash_get_random client params in
  let array :=
    match body with
    | JArray _ => body
    | _ => JArray [body]
    end in
  Decode.photos array = Some photos
  /\ (GetRandomPhotoParams.response_format params = ResponseFormat.JSON ->
      result = {| text := JSON_stringify array;
                  structuredContent := Some (JObject [("photos", array)]);
                  isError := false |})
  /\ (GetRandomPhotoParams.response_format params = ResponseFormat.MARKDOWN ->
      result = plain (random_photo_markdown params photos)
      /\ forall photo caption,
           In photo photos -> Photo.alt_description photo = Some caption ->
           JS.length caption < JS.length (text result)).
Proof.
  intros Hattempt Hphotos. cbv zeta. split.
  { unfold Decode.photo_or_photos in Hphotos. unfold Decode.photos, Decode.array.
    destruct body; try exact Hphotos;
      cbn [Decode.all]; destruct (Decode.photo _) as [one|];
      try discriminate; exact Hphotos. }
  unfold unsplash_get_random. rewrite Hattempt, Hphotos.
  split; intros ->; [reflexivity|]. split; [reflexivity|].
  intros photo caption Hin Hcaption. cbn [text plain].
  unfold random_photo_markdown. cbv zeta. rewrite JS_length_app.
  pose proof (formatPhotosListMarkdown_longer_than_caption _ _ _ Hin Hcaption).
  unfold JS.length in *. lia.
Qed.

(** One photo whose caption has [CHARACTER_LIMIT] characters: the text is
    longer than the limit. *)
Lemma unsplash_get_random_result_witness :
  let body := Sample.body_of_photo Sample.long_photo in
  Decode.photo_or_photos body = Some [Sample.long_photo]
  /\ CHARACTER_LIMIT
     < JS.length
         (text (unsplash_get_random (host := Sample.host_answering body)
                  (stringify := Sample.stringify) (untyped := Sample.untyped)
                  Sample.client Sample.random_params)).
Proof.
  cbv zeta. split; [reflexivity|].
  destruct (unsplash_get_random_result
              (host := Sample.host_answering (Sample.body_of_photo Sample.long_photo))
              (stringify := Sample.stringify) (untyped := Sample.untyped)
              Sample.client Sample.random_params
              (Sample.body_of_photo Sample.long_photo) [Sample.long_photo]
              eq_refl eq_refl) as (_ & _ & Hmarkdown).
  destruct (Hmarkdown eq_refl) as [_ Hlonger].
  exact (Hlonger Sample.long_photo (JS.repeat "a" (Z.to_nat CHARACTER_LIMIT))
           (or_introl eq_refl) eq_refl).
Defined.

(** X16: the other listing tools guard their markdown.  Once the request
    has returned a body of the declared type whose list is not empty, and
    the markdown format is asked for, [unsplash_list_photos],
    [unsplash_search_collections], [unsplash_get_collection_photos],
    [unsplash_search_users] and [unsplash_get_user_photos] return the
    document passed through [truncateIfNeeded] with the default limit, so
    the text has at most [CHARACTER_LIMIT] characters. *)
Theorem listing_tools_guard_markdown {host : Host} {locale : Locale}
    {stringify : Stringify} {untyped : Untyped} (client : UnsplashClient) :
  (forall params body photos,
     makeRequest client "/photos" (Some (list_photos_request params))
     = JS.Return body ->
     Decode.photos body = Some photos -> photos <> [] ->
     ListPhotosParams.response_format params = ResponseFormat.MARKDOWN ->
     guarded (unsplash_list_photos client params)
       (list_photos_markdown params photos))
  /\ (forall params body data,
        makeRequest client "/search/collections" (Some (search_request params))
        = JS.Return body ->
        Decode.search Decode.collection body = Some data ->
        SearchResponse.results data <> [] ->
        SearchParams.response_format params = ResponseFormat.MARKDOWN ->
        guarded (unsplash_search_collections client params)
          (search_collections_markdown params data))
  /\ (forall params body photos,
        makeRequest client
          ("/collections/" +:+ GetCollectionPhotosParams.id params +:+ "/photos")
          (Some (collection_photos_request params))
        = JS.Return body ->
        Decode.photos body = Some photos -> photos <> [] ->
        GetCollectionPhotosParams.response_format params = ResponseFormat.MARKDOWN ->
        guarded (unsplash_get_collection_photos client params)
          (collection_photos_markdown params photos))
  /\ (forall params body data,
        makeRequest client "/search/users" (Some (search_request params))
        = JS.Return body ->
        Decode.search Decode.user body = Some data ->
        SearchResponse.results data <> [] ->
        SearchParams.response_format params = ResponseFormat.MARKDOWN ->
        guarded (unsplash_search_users client params)
          (search_users_markdown params data))
  /\ (forall params body photos,
        makeRequest client
          ("/users/" +:+ GetUserPhotosParams.username params +:+ "/photos")
          (Some (user_photos_request params))
        = JS.Return body ->
        Decode.photos body = Some photos -> photos <> [] ->
        GetUserPhotosParams.response_format params = ResponseFormat.MARKDOWN ->
        guarded (unsplash_get_user_photos client params)
          (user_photos_markdown params photos)).
Proof.
  unfold guarded.
  split; [|split; [|split; [|split]]];
    intros params body decoded Hattempt Hdecoded Hsome Hformat;
    [ unfold unsplash_list_photos
    | unfold unsplash_search_collections
    | unfold unsplash_get_collection_photos
    | unfold unsplash_search_users
    | unfold unsplash_get_user_photos ];
    rewrite Hattempt, Hdecoded, Hformat;
    try (destruct (search_has_results _ _ _ Hdecoded) as (results & -> & _));
    match goal with
    | |- context [List.length ?items] =>
        destruct items; [now destruct Hsome|]
    end;
    cbn [List.length Nat.eqb text plain];
    (split; [reflexivity|]); intros Hvalue;
    now apply truncateIfNeeded_within_limit.
Qed.

(** The editorial feed with the long photo: the document is longer than
    the limit, the text of the result is not. *)
Lemma listing_tools_guard_markdown_witness :
  let body := Sample.body_of_photos [Sample.long_photo] in
  Decode.photos body = Some [Sample.long_photo]
  /\ CHARACTER_LIMIT
     < JS.length (list_photos_markdown Sample.list_params [Sample.long_photo])
  /\ JS.length
       (text (unsplash_list_photos (host := Sample.host_answering body)
                (stringify := Sample.stringify) (untyped := Sample.untyped)
                Sample.client Sample.list_params))
     <= CHARACTER_LIMIT.
Proof.
  cbv zeta. split; [reflexivity|]. split; [vm_compute; reflexivity|].
  destruct (listing_tools_guard_markdown
              (host := Sample.host_answering
                         (Sample.body_of_photos [Sample.long_photo]))
              (locale := EnUS.locale) (stringify := Sample.stringify)
              (untyped := Sample.untyped) Sample.client) as (Hlist & _).
  destruct (Hlist Sample.list_params (Sample.body_of_photos [Sample.long_photo])
              [Sample.long_photo] eq_refl eq_refl) as [_ Hbound];
    [discriminate|reflexivity|].
  apply Hbound. vm_compute; discriminate.
Defined.

(** X17: the addresses the other tools request, when the page numbers,
    page sizes and counts are integers of at most [2^53 - 1].  An id or a
    user name is put into the path as it is given, without encoding; the
    parameters follow in the order of the source, optional ones only when
    they are given, numbers with their decimal digits and a search query
    form-urlencoded. *)
Theorem tools_addresses (client : UnsplashClient) :
  (forall params,
     url (request_of client ("/photos/" +:+ GetPhotoParams.id params) None)
     = UNSPLASH_API_URL +:+ "/photos/" +:+ GetPhotoParams.id params)
  /\ (forall params,
        JS.safe_integer (GetRandomPhotoParams.count params) ->
        url (request_of client "/photos/random" (Some (random_photo_request params)))
        = UNSPLASH_API_URL +:+ "/photos/random?content_filter="
            +:+ ContentFilter.value (GetRandomPhotoParams.content_filter params)
            +:+ "&count=" +:+ pretty (GetRandomPhotoParams.count params)
            +:+ match GetRandomPhotoParams.query params with
                | Some (String c query) =>
                    "&query=" +:+ URLSearchParams.serialize_string (String c query)
                | _ => EmptyString
                end
            +:+ match GetRandomPhotoParams.orientation params with
                | Some orientation =>
                    "&orientation=" +:+ PhotoOrientation.value orientation
                | None => EmptyString
                end)
  /\ (forall params,
        JS.safe_integer (ListPhotosParams.page params) ->
        JS.safe_integer (ListPhotosParams.per_page params) ->
        url (request_of client "/photos" (Some (list_photos_request params)))
        = UNSPLASH_API_URL +:+ "/photos?page="
            +:+ pretty (ListPhotosParams.page params)
            +:+ "&per_page=" +:+ pretty (ListPhotosParams.per_page params)
            +:+ "&order_by=" +:+ FeedOrder.value (ListPhotosParams.order_by params))
  /\ (forall params,
        url (request_of client
               ("/photos/" +:+ GetPhotoStatisticsParams.id params +:+ "/statistics")
               None)
        = UNSPLASH_API_URL +:+ "/photos/" +:+ GetPhotoStatisticsParams.id params
            +:+ "/statistics")
  /\ (forall endpoint params,
        JS.safe_integer (SearchParams.page params) ->
        JS.safe_integer (SearchParams.per_page params) ->
        url (request_of client endpoint (Some (search_request params)))
        = UNSPLASH_API_URL +:+ endpoint +:+ "?query="
            +:+ URLSearchParams.serialize_string (SearchParams.query params)
            +:+ "&page=" +:+ pretty (SearchParams.page params)
            +:+ "&per_page=" +:+ pretty (SearchParams.per_page params))
  /\ (forall params,
        JS.safe_integer (GetCollectionPhotosParams.page params) ->
        JS.safe_integer (GetCollectionPhotosParams.per_page params) ->
        url (request_of client
               ("/collections/" +:+ GetCollectionPhotosParams.id params +:+ "/photos")
               (Some (collection_photos_request params)))
        = UNSPLASH_API_URL
            +:+ ("/collections/" +:+ GetCollectionPhotosParams.id params +:+ "/photos")
            +:+ "?page=" +:+ pretty (GetCollectionPhotosParams.page params)
            +:+ "&per_page=" +:+ pretty (GetCollectionPhotosParams.per_page params)
            +:+ match GetCollectionPhotosParams.orientation params with
                | Some orientation =>
                    "&orientation=" +:+ PhotoOrientation.value orientation
                | None => EmptyString
                end)
  /\ (forall params,
        JS.safe_integer (GetUserPhotosParams.page params) ->
        JS.safe_integer (GetUserPhotosParams.per_page params) ->
        url (request_of client
               ("/users/" +:+ GetUserPhotosParams.username params +:+ "/photos")
               (Some (user_photos_request params)))
        = UNSPLASH_API_URL
            +:+ ("/users/" +:+ GetUserPhotosParams.username params +:+ "/photos")
            +:+ "?page=" +:+ pretty (GetUserPhotosParams.page params)
            +:+ "&per_page=" +:+ pretty (GetUserPhotosParams.per_page params)
            +:+ "&order_by=" +:+ FeedOrder.value (GetUserPhotosParams.order_by params)
            +:+ match GetUserPhotosParams.orientation params with
                | Some orientation =>
                    "&orientation=" +:+ PhotoOrientation.value orientation
                | None => EmptyString
                end).
Proof.
  split; [|split; [|split; [|split; [|split; [|split]]]]]; intros;
    unfold request_of; cbn [url].
  - unfold url_of. cbn. now rewrite app_empty_r.
  - unfold random_photo_request. cbv zeta.
    destruct (GetRandomPhotoParams.query params) as [[|c query]|];
      destruct (GetRandomPhotoParams.orientation params) as [o|];
      cbn [app JS.truthy JS.interpolate];
      (erewrite url_of_present
         by (cbn [present flat_map app fst snd String_of]; reflexivity)).
    all: address_tac.
  - unfold list_photos_request.
    erewrite url_of_present
      by (cbn [present flat_map app fst snd String_of]; reflexivity).
    address_tac.
  - unfold url_of. cbn. now rewrite app_empty_r.
  - unfold search_request.
    erewrite url_of_present
      by (cbn [present flat_map app fst snd String_of]; reflexivity).
    address_tac.
  - unfold collection_photos_request. cbv zeta.
    destruct (GetCollectionPhotosParams.orientation params) as [o|];
      cbn [app];
      (erewrite url_of_present
         by (cbn [present flat_map app fst snd String_of]; reflexivity)).
    all: address_tac.
  - unfold user_photos_request. cbv zeta.
    destruct (GetUserPhotosParams.orientation params) as [o|];
      cbn [app];
      (erewrite url_of_present
         by (cbn [present flat_map app fst snd String_of]; reflexivity)).
    all: address_tac.
Qed.

(** The first page of the editorial feed. *)
Lemma tools_addresses_witness :
  url (request_of Sample.client "/photos"
         (Some (list_photos_request Sample.list_params)))
  = "https://api.unsplash.com/photos?page=1&per_page=10&order_by=latest".
Proof.
  destruct (tools_addresses Sample.client) as (_ & _ & Hlist & _).
  apply (Hlist Sample.list_params); vm_compute; discriminate.
Defined.
